(** * ClusterRun: dispatch and result checking over SGE and Slurm

    A shallow embedding of [ClusterRun.py].  The module is a thin layer of
    Python over three outside parties: the [cluster_helper] library (which
    talks to the scheduler), the process environment ([os.environ],
    [Path.home()], the file system) and [pickle].  They are modelled as
    follows.

    - Python objects.  Plain data ([None], booleans, integers, strings) is
      [PyData]; a [PyObj] is plain data or a reference to a [Settings]
      instance living in the heap.  Attribute values of a [Settings]
      instance are plain data.  The user's [function] and its
      [parameter_list] are typed: a total function [Param -> Res] and a
      [list Param]; the code only ever applies [str] to a parameter and
      [bool] to a result, which are the classes [Str] and [Truth].
    - Effects.  Every routine is a computation [Py A]: it takes the world
      and returns a value or a raised exception together with the new
      world.  The world holds the heap of [Settings] instances (so that two
      names for one instance see each other's writes), [os.environ], the
      home directory, the files, the text printed so far and the list of
      [cluster_view] requests made so far.
    - [cluster_helper.cluster.cluster_view(...)] records its keyword
      arguments as a [ViewRequest]; [view.map(function, parameter_list)]
      applies [function] to every parameter, in order.  A scheduler that
      refuses the request and a worker whose [function] raises are not
      modelled: the statements below are about what happens up to and
      including the request, or assume that [ClusterRun] returns.
    - Calls.  [function] and [parameter_list] are passed positionally, as
      [ClusterChecked] does (line 183); the model's [args] is what follows
      them, and [posarg args i] is the source's [args[i]] for [i >= 2]. *)

From Stdlib Require Import ZArith Ascii String List Lia.
From stdpp Require Import base option list strings gmap pretty countable.

Open Scope Z_scope.

(** ** Python values *)

Definition loc := nat.

Inductive PyData : Type :=
  | PyNone
  | PyBool (b : bool)
  | PyInt (z : Z)
  | PyStr (s : string).

Inductive PyObj : Type :=
  | Data (d : PyData)
  | Inst (l : loc).

#[global] Instance PyData_eq_dec : EqDecision PyData.
Proof. solve_decision. Defined.

#[global] Instance PyObj_eq_dec : EqDecision PyObj.
Proof. solve_decision. Defined.

(** [str(x)] and [bool(x)], the two protocols the code relies on. *)
Class Str (A : Type) := str : A → string.
Class Truth (A : Type) := truth : A → bool.

Definition nl : string := String "010"%char EmptyString.

#[global] Instance nat_Str : Str nat := λ n, pretty n.
#[global] Instance string_Str : Str string := λ s, s.

#[global] Instance PyData_Str : Str PyData := λ d,
  match d with
  | PyNone => "None"
  | PyBool true => "True"
  | PyBool false => "False"
  | PyInt z => pretty z
  | PyStr s => s
  end.

#[global] Instance PyData_Truth : Truth PyData := λ d,
  match d with
  | PyNone => false
  | PyBool b => b
  | PyInt z => negb (z =? 0)
  | PyStr s => negb (String.eqb s "")
  end.

#[global] Instance bool_Truth : Truth bool := λ b, b.

(** ** Instance dictionaries

    [self.__dict__] keeps insertion order (which [__str__] shows), so it is
    an association list with unique keys. *)

Abbreviation attrs := (list (string * PyData)).

Fixpoint dict_get (k : string) (d : attrs) : option PyData :=
  match d with
  | [] => None
  | (k', v) :: d => if decide (k = k') then Some v else dict_get k d
  end.

Fixpoint dict_set (k : string) (v : PyData) (d : attrs) : attrs :=
  match d with
  | [] => [(k, v)]
  | (k', v') :: d =>
      if decide (k = k') then (k, v) :: d else (k', v') :: dict_set k v d
  end.

(** ** Exceptions, the world and the monad *)

Inductive exn : Type :=
  | AttributeError (name : string)
  | KeyError (key : PyData)
  | TypeError
  | IndexError
  | RuntimeError (msg : string)
  | OSError
  | UnpicklingError.

Inductive Result (A : Type) : Type :=
  | Return (a : A)
  | Raise (e : exn).
Arguments Return {A} a.
Arguments Raise {A} e.

Inductive Backend : Type := SGE | Slurm.

#[global] Instance Backend_eq_dec : EqDecision Backend.
Proof. solve_decision. Defined.

(** The keyword arguments of one [cluster_view(...)] call;
    [vr_resources] is [extra_params['resources']]. *)
Record ViewRequest : Type := {
  vr_scheduler : string;
  vr_queue : string;
  vr_num_jobs : PyObj;
  vr_cores_per_job : PyObj;
  vr_resources : string;
  vr_profile : string;
}.

Record World : Type := {
  heap : gmap loc attrs;
  environ : gmap string string;
  home : string;
  files : gmap string (list Byte.byte);
  writable : string → bool;
  stdout : string;
  views : list ViewRequest;
}.

Definition Py (A : Type) : Type := World → Result A * World.

#[global] Instance Py_ret : MRet Py := λ A a w, (Return a, w).
#[global] Instance Py_bind : MBind Py := λ A B f m w,
  match m w with
  | (Return a, w') => f a w'
  | (Raise e, w') => (Raise e, w')
  end.

Definition raise {A : Type} (e : exn) : Py A := λ w, (Raise e, w).
Definition get_world : Py World := λ w, (Return w, w).

Definition set_heap (h : gmap loc attrs) (w : World) : World :=
  {| heap := h; environ := environ w; home := home w; files := files w;
     writable := writable w; stdout := stdout w; views := views w |}.

Definition set_files (fs : gmap string (list Byte.byte)) (w : World) : World :=
  {| heap := heap w; environ := environ w; home := home w; files := fs;
     writable := writable w; stdout := stdout w; views := views w |}.

Definition set_stdout (out : string) (w : World) : World :=
  {| heap := heap w; environ := environ w; home := home w; files := files w;
     writable := writable w; stdout := out; views := views w |}.

Definition set_views (vs : list ViewRequest) (w : World) : World :=
  {| heap := heap w; environ := environ w; home := home w; files := files w;
     writable := writable w; stdout := stdout w; views := vs |}.

(** [print(s)]: the text and a newline go to standard output. *)
Definition print (s : string) : Py unit := λ w,
  (Return (), set_stdout (stdout w +:+ s +:+ nl) w).

(** ** Objects in the heap *)

(** The [__dict__] of the instance at [l]. *)
Definition instance_dict (w : World) (l : loc) : attrs :=
  default [] (heap w !! l).

(** [obj.name], for the names this module reads ([scheduler], [max_jobs],
    [cores_per_job], [mem]), none of which the class defines: plain data has
    none of them, an instance answers from its [__dict__].  (Names that the
    class [Settings] or [object] define, such as [Save] or [__dict__], are
    never read through it.) *)
Definition getattr (o : PyObj) (name : string) : Py PyData :=
  match o with
  | Data _ => raise (AttributeError name)
  | Inst l =>
      w ← get_world;
      match dict_get name (instance_dict w l) with
      | Some v => mret v
      | None => raise (AttributeError name)
      end
  end.

(** [obj.__dict__] *)
Definition obj_dict (o : PyObj) : Py attrs :=
  match o with
  | Data _ => raise (AttributeError "__dict__")
  | Inst l => w ← get_world; mret (instance_dict w l)
  end.

(** [obj.name = v] *)
Definition setattr (o : PyObj) (name : string) (v : PyData) : Py unit :=
  match o with
  | Data _ => raise (AttributeError name)
  | Inst l => λ w,
      (Return (), set_heap (<[l := dict_set name v (instance_dict w l)]> (heap w)) w)
  end.

(** A new instance with the given [__dict__]. *)
Definition alloc (d : attrs) : Py PyObj := λ w,
  let l := fresh (dom (heap w)) in
  (Return (Inst l), set_heap (<[l := d]> (heap w)) w).

(** ** Files and pickles *)

(** [open(filename, 'wb')]: fails on a path that cannot be written,
    otherwise leaves an empty file.  Files are keyed by the path as it is
    spelt; the statements below only ever compare a path with itself. *)
Definition open_wb (filename : string) : Py unit := λ w,
  if writable w filename
  then (Return (), set_files (<[filename := []]> (files w)) w)
  else (Raise OSError, w).

(** [fw.write(data)] on a file just opened by [open_wb]. *)
Definition file_write (filename : string) (data : list Byte.byte) : Py unit := λ w,
  (Return (), set_files (<[filename := data]> (files w)) w).

(** [open(filename, 'rb')] and reading it to the end. *)
Definition open_rb_read (filename : string) : Py (list Byte.byte) := λ w,
  match files w !! filename with
  | Some data => (Return data, w)
  | None => (Raise OSError, w)
  end.

(** What a pickle can hold here: plain data, or a [Settings] instance with
    its [__dict__]. *)
Inductive Pickled : Type :=
  | PickledData (v : PyData)
  | PickledSettings (d : attrs).

#[global] Instance Pickled_eq_dec : EqDecision Pickled.
Proof. solve_decision. Defined.

(** ** class Settings (lines 28-55)

    [__repr__] is left out: no routine of the module calls it. *)

Module Settings.

(** [Settings(k1=v1, ...)], lines 36-38: every keyword becomes an
    attribute, in the order given.  The keyword [self] clashes with the
    first parameter of [__init__(self, ...)]: that call is a [TypeError]. *)
Definition __init__ (kwargs : attrs) : Py PyObj :=
  if existsb (String.eqb "self") kwargs.*1 then raise TypeError
  else alloc (foldl (λ d kv, dict_set kv.1 kv.2 d) [] kwargs).

(** [str(self)], lines 54-55. *)
Definition __str__ (d : attrs) : string :=
  String.concat nl (map (λ kv, str kv.1 +:+ ": " +:+ str kv.2) d).

Section Pickle.
(** [pickle.dumps] and [pickle.loads]: the standard library's codec,
    taken as given.  [pickle_loads] answers [None] on bytes it cannot
    decode. *)
Context (pickle_dumps : Pickled → list Byte.byte).
Context (pickle_loads : list Byte.byte → option Pickled).

(** [settings.Save(filename)], lines 40-43.  The file is opened, and
    thereby emptied, before the instance is pickled. *)
Definition Save (self : loc) (filename : string) : Py unit :=
  open_wb filename;;
  w ← get_world;
  let data := pickle_dumps (PickledSettings (instance_dict w self)) in
  file_write filename data.

(** [Settings.Load(filename)], lines 45-47.  [UnpicklingError] stands for
    whatever [pickle.load] raises on bytes it cannot decode. *)
Definition Load (filename : string) : Py PyObj :=
  data ← open_rb_read filename;
  match pickle_loads data with
  | Some (PickledSettings d) => alloc d
  | Some (PickledData v) => mret (Data v)
  | None => raise UnpicklingError
  end.
End Pickle.

End Settings.

(** [f'{x}']: [format(x, '')], which is [str(x)] for every object here. *)
Definition format (o : PyObj) : Py string :=
  match o with
  | Data d => mret (str d)
  | Inst l => w ← get_world; mret (Settings.__str__ (instance_dict w l))
  end.

(** ** The environment and the cluster library *)

(** [str(Path.home())] *)
Definition Path_home : Py string := λ w, (Return (home w), w).

(** [os.environ[name]] *)
Definition os_environ (name : string) : Py string := λ w,
  match environ w !! name with
  | Some v => (Return v, w)
  | None => (Raise (KeyError (PyStr name)), w)
  end.

(** [min(n, m)] for [n = len(...)]: [m] when [m < n], else [n].  Booleans
    compare as the integers 0 and 1; [None], strings and instances do not
    compare with an integer. *)
Definition py_min (n : Z) (m : PyObj) : Py PyObj :=
  match m with
  | Data (PyInt z) => mret (if z <? n then m else Data (PyInt n))
  | Data (PyBool b) => mret (if Z.b2z b <? n then m else Data (PyInt n))
  | _ => raise TypeError
  end.

(** Entering [with cluster_view(...) as view]: the request reaches the
    scheduler. *)
Definition cluster_view (r : ViewRequest) : Py unit := λ w,
  (Return (), set_views (views w ++ [r]) w).

(** ** Calling conventions *)

(** The keywords of a call [g(..., k1=v1, ..., **kwargs)]: a name given
    twice is a [TypeError]. *)
Definition merge_keywords (explicit : list (string * PyObj))
    (kwargs : gmap string PyObj) : Py (gmap string PyObj) :=
  if bool_decide (Exists (λ kv, is_Some (kwargs !! kv.1)) explicit)
  then raise TypeError
  else mret (list_to_map explicit ∪ kwargs).

(** Binding keywords to a callee whose parameters still open to keywords
    are [names]: any other keyword (unknown, or naming a parameter already
    filled positionally) is a [TypeError]. *)
Definition bind_keywords (names : list string) (kw : gmap string PyObj) : Py unit :=
  if bool_decide (dom kw ⊆ list_to_set names) then mret () else raise TypeError.

(** [args[i]] of the source, for [i >= 2]: see the header. *)
Definition posarg (args : list PyObj) (i : nat) : option PyObj :=
  args !! (i - 2)%nat.

(** [mapping = {'sge':ClusterRunSGE, 'slurm':ClusterRunSlurm}] and
    [mapping[key]], lines 141 and 148. *)
Definition mapping (key : PyData) : Py Backend :=
  if decide (key = PyStr "sge") then mret SGE
  else if decide (key = PyStr "slurm") then mret Slurm
  else raise (KeyError key).

(** The pattern of lines 157-161, 162-166 and 167-171:
    [if len(args) > i: x = args[i]
     elif name in kwargs: x = kwargs[name]; kwargs.pop(name)] *)
Definition positional_or_keyword (args : list PyObj) (i : nat) (name : string)
    (x : PyObj) (kwargs : gmap string PyObj) : PyObj * gmap string PyObj :=
  match posarg args i with
  | Some a => (a, kwargs)
  | None =>
      match kwargs !! name with
      | Some v => (v, delete name kwargs)
      | None => (x, kwargs)
      end
  end.

(** The local variables of [ClusterRun] on reaching line 173. *)
Record Resolved : Type := {
  r_dispatch : Backend;
  r_max_jobs : PyObj;
  r_cores_per_job : PyObj;
  r_mem : PyObj;
  r_kwargs : gmap string PyObj;
}.

(** [x = settings.name if name in settings.__dict__ else x] *)
Definition settings_or (d : attrs) (name : string) (x : PyObj) : PyObj :=
  match dict_get name d with
  | Some v => Data v
  | None => x
  end.

(** [ClusterRun], lines 141-171. *)
Definition ClusterRun_resolve (args : list PyObj) (kwargs : gmap string PyObj)
    : Py Resolved :=
  let dispatch := SGE in
  let max_jobs := Data (PyInt 100) in
  let cores_per_job := Data (PyInt 1) in
  let mem := Data (PyStr "5GB") in
  '(dispatch, max_jobs, cores_per_job, mem, kwargs) ←
    match kwargs !! "settings" with
    | Some settings =>
        scheduler ← getattr settings "scheduler";
        dispatch ← mapping scheduler;
        d ← obj_dict settings;
        let max_jobs := settings_or d "max_jobs" max_jobs in
        let cores_per_job := settings_or d "cores_per_job" cores_per_job in
        let mem := settings_or d "mem" mem in
        mret (dispatch, max_jobs, cores_per_job, mem, delete "settings" kwargs)
    | None => mret (dispatch, max_jobs, cores_per_job, mem, kwargs)
    end;
  let '(max_jobs, kwargs) :=
    positional_or_keyword args 2 "max_jobs" max_jobs kwargs in
  let '(cores_per_job, kwargs) :=
    positional_or_keyword args 3 "cores_per_job" cores_per_job kwargs in
  let '(mem, kwargs) :=
    positional_or_keyword args 4 "mem" mem kwargs in
  mret {| r_dispatch := dispatch; r_max_jobs := max_jobs;
          r_cores_per_job := cores_per_job; r_mem := mem;
          r_kwargs := kwargs |}.

Section Cluster.
Context {Param Res : Type}.

(** [view.map(function, parameter_list)] *)
Definition view_map (function : Param → Res) (parameter_list : list Param)
    : Py (list Res) :=
  mret (map function parameter_list).

(** [ClusterRunSGE], lines 58-92. *)
Definition ClusterRunSGE (function : Param → Res) (parameter_list : list Param)
    (max_jobs cores_per_job : PyObj) : Py (list Res) :=
  let num_jobs := Z.of_nat (length parameter_list) in
  num_jobs ← py_min num_jobs max_jobs;
  myhomedir ← Path_home;
  cluster_view {| vr_scheduler := "sge"; vr_queue := "RAM.q";
                  vr_num_jobs := num_jobs; vr_cores_per_job := cores_per_job;
                  vr_resources := "pename=python-round-robin";
                  vr_profile := myhomedir +:+ "/.ipython/" |};;
  res ← view_map function parameter_list;
  mret res.

(** [ClusterRunSlurm], lines 95-137. *)
Definition ClusterRunSlurm (function : Param → Res) (parameter_list : list Param)
    (max_jobs cores_per_job mem : PyObj) : Py (list Res) :=
  let num_jobs := Z.of_nat (length parameter_list) in
  num_jobs ← py_min num_jobs max_jobs;
  myhomedir ← Path_home;
  user ← os_environ "USER";
  mem ← format mem;
  cluster_view {| vr_scheduler := "slurm"; vr_queue := "RAM";
                  vr_num_jobs := num_jobs; vr_cores_per_job := cores_per_job;
                  vr_resources :=
                    "account=" +:+ user +:+ ";timelimit=7-00:00:00;mem=" +:+ mem;
                  vr_profile := myhomedir +:+ "/.ipython/" |};;
  res ← view_map function parameter_list;
  mret res.

(** A call [backend(function, parameter_list, **kw)]: the keywords are
    bound against the signature (line 58, resp. lines 95-96), a parameter
    left out taking its default. *)
Definition call_backend (backend : Backend) (function : Param → Res)
    (parameter_list : list Param) (kw : gmap string PyObj) : Py (list Res) :=
  match backend with
  | SGE =>
      bind_keywords ["max_jobs"; "cores_per_job"] kw;;
      ClusterRunSGE function parameter_list
        (default (Data (PyInt 100)) (kw !! "max_jobs"))
        (default (Data (PyInt 1)) (kw !! "cores_per_job"))
  | Slurm =>
      bind_keywords ["max_jobs"; "cores_per_job"; "mem"] kw;;
      ClusterRunSlurm function parameter_list
        (default (Data (PyInt 64)) (kw !! "max_jobs"))
        (default (Data (PyInt 1)) (kw !! "cores_per_job"))
        (default (Data (PyStr "5GB")) (kw !! "mem"))
  end.

(** [ClusterRun], lines 140-178. *)
Definition ClusterRun (function : Param → Res) (parameter_list : list Param)
    (args : list PyObj) (kwargs : gmap string PyObj) : Py (list Res) :=
  r ← ClusterRun_resolve args kwargs;
  if decide (r_dispatch r = SGE) then
    kw ← merge_keywords [("max_jobs", r_max_jobs r);
                         ("cores_per_job", r_cores_per_job r)] (r_kwargs r);
    call_backend (r_dispatch r) function parameter_list kw
  else
    kw ← merge_keywords [("max_jobs", r_max_jobs r);
                         ("cores_per_job", r_cores_per_job r);
                         ("mem", r_mem r)] (r_kwargs r);
    call_backend (r_dispatch r) function parameter_list kw.

(** A routine declared [def f(function, parameter_list, *args, **kwargs)]
    cannot be handed [function] or [parameter_list] a second time by
    keyword: the call itself is a [TypeError]. *)
Definition named_parameters (kwargs : gmap string PyObj) : Py unit :=
  if bool_decide (is_Some (kwargs !! "function") ∨
                  is_Some (kwargs !! "parameter_list"))
  then raise TypeError
  else mret ().

Context `{!Str Param, !Truth Res}.

(** The generator of lines 192-193:
    [str(parameter_list[i]) for i in range(len(res)) if not bool(res[i])] *)
Definition failed_parameters (parameter_list : list Param) (res : list Res)
    : Py (list string) :=
  mapM (λ i, match parameter_list !! i with
             | Some p => mret (str p)
             | None => raise IndexError
             end)
       (List.filter (λ i, match res !! i with
                          | Some b => negb (truth b)
                          | None => false
                          end)
                    (seq 0 (length res))).

(** [ClusterChecked], lines 181-194. *)
Definition ClusterChecked (function : Param → Res) (parameter_list : list Param)
    (args : list PyObj) (kwargs : gmap string PyObj) : Py unit :=
  named_parameters kwargs;;
  res ← ClusterRun function parameter_list args kwargs;
  if forallb truth res then
    print ("All " +:+ str (length res) +:+ " jobs successful.")
  else
    let failed := sum_list (map (λ b, Nat.b2n (negb (truth b))) res) in
    if decide (failed = length res) then
      raise (RuntimeError ("All " +:+ str failed +:+ " jobs failed!"))
    else
      lines ← failed_parameters parameter_list res;
      print ("Error on job parameters:" +:+ nl +:+ "  " +:+
             String.concat (nl +:+ "  ") lines);;
      raise (RuntimeError (str failed +:+ " of " +:+ str (length res) +:+
                           " jobs failed!")).

(** [ClusterCheckedSGE], lines 196-202.  The default [Settings()] of
    [kwargs.get] is built before the lookup. *)
Definition ClusterCheckedSGE (function : Param → Res)
    (parameter_list : list Param) (args : list PyObj)
    (kwargs : gmap string PyObj) : Py unit :=
  named_parameters kwargs;;
  fresh_settings ← Settings.__init__ [];
  let settings := default fresh_settings (kwargs !! "settings") in
  setattr settings "scheduler" (PyStr "sge");;
  let kwargs := <["settings" := settings]> kwargs in
  ClusterChecked function parameter_list args kwargs.

(** [ClusterCheckedSlurm], lines 204-210. *)
Definition ClusterCheckedSlurm (function : Param → Res)
    (parameter_list : list Param) (args : list PyObj)
    (kwargs : gmap string PyObj) : Py unit :=
  named_parameters kwargs;;
  fresh_settings ← Settings.__init__ [];
  let settings := default fresh_settings (kwargs !! "settings") in
  setattr settings "scheduler" (PyStr "slurm");;
  let kwargs := <["settings" := settings]> kwargs in
  ClusterChecked function parameter_list args kwargs.

End Cluster.

(** ** Vocabulary of the statements *)

(** The value the [settings] keyword carries for [name], if any. *)
Definition settings_attr (w : World) (kwargs : gmap string PyObj)
    (name : string) : option PyObj :=
  match kwargs !! "settings" with
  | Some (Inst l) => Data <$> dict_get name (instance_dict w l)
  | _ => None
  end.

(** The falsy entries of a result list. *)
Definition falsy {Res : Type} `{!Truth Res} (res : list Res) : list Res :=
  List.filter (λ b, negb (truth b)) res.

(** The exceptions of dispatch: a missing attribute, an unknown key, a
    call or comparison that does not type. *)
Definition dispatch_error (e : exn) : Prop :=
  match e with
  | AttributeError _ | KeyError _ | TypeError => True
  | _ => False
  end.

(** The world in which a scheduler-specific variant hands over to
    [ClusterChecked]: the default [Settings()] has been built, and the
    instance at [l] has had its [scheduler] set to [tag]. *)
Definition forced (tag : string) (l : loc) (w : World) : World :=
  let wa := (alloc [] w).2 in
  set_heap (<[l := dict_set "scheduler" (PyStr tag) (instance_dict wa l)]>
              (heap wa)) wa.

(** ** A codec for the pickle interface

    [Settings.Save] and [Settings.Load] are stated over any codec; this one
    (the bits of stdpp's [encode], one per byte) shows that the law assumed
    of [pickle] below can be met. *)

#[global] Instance PyData_countable : Countable PyData.
Proof.
  refine (inj_countable'
    (λ d, match d with
          | PyNone => inl ()
          | PyBool b => inr (inl b)
          | PyInt z => inr (inr (inl z))
          | PyStr s => inr (inr (inr s))
          end)
    (λ x, match x with
          | inl () => PyNone
          | inr (inl b) => PyBool b
          | inr (inr (inl z)) => PyInt z
          | inr (inr (inr s)) => PyStr s
          end) _).
  by intros [].
Defined.

#[global] Instance Pickled_countable : Countable Pickled.
Proof.
  refine (inj_countable'
    (λ p, match p with
          | PickledData v => inl v
          | PickledSettings d => inr d
          end)
    (λ x, match x with
          | inl v => PickledData v
          | inr d => PickledSettings d
          end) _).
  by intros [].
Defined.

Fixpoint bits_of (p : positive) : list Byte.byte :=
  match p with
  | xH => []
  | xO p => Byte.x00 :: bits_of p
  | xI p => Byte.x01 :: bits_of p
  end.

Fixpoint of_bits (bs : list Byte.byte) : option positive :=
  match bs with
  | [] => Some xH
  | Byte.x00 :: bs => xO <$> of_bits bs
  | Byte.x01 :: bs => xI <$> of_bits bs
  | _ => None
  end.

Definition codec_dumps (p : Pickled) : list Byte.byte := bits_of (encode p).
Definition codec_loads (bs : list Byte.byte) : option Pickled :=
  of_bits bs ≫= decode.

(** ** The usage example of the header comment (lines 6-24) *)

Module Example.

Definition world : World :=
  {| heap := ∅; environ := {[ "USER" := "alice" ]}; home := "/home/alice";
     files := ∅; writable := λ _, true; stdout := ""; views := [] |}.

Definition subs : list string := ["R1642J"; "R1644T"; "R1646T"].

(** [RunMyAnalysis], returning [False] for the subjects in [failing]. *)
Definition RunMyAnalysis (failing : list string) (sub : string) : bool :=
  negb (bool_decide (sub ∈ failing)).

(** The settings of lines 8-11, held by the instance at location 0. *)
Definition settings : attrs :=
  [("scheduler", PyStr "slurm"); ("max_jobs", PyInt 16);
   ("mem", PyStr "20GB")].

Definition world_with_settings : World := set_heap {[ 0%nat := settings ]} world.

(** The single request a default run over [subs] makes. *)
Definition sge_request : ViewRequest :=
  {| vr_scheduler := "sge"; vr_queue := "RAM.q";
     vr_num_jobs := Data (PyInt 3); vr_cores_per_job := Data (PyInt 1);
     vr_resources := "pename=python-round-robin";
     vr_profile := "/home/alice/.ipython/" |}.

(** The request of a run over [subs] under [settings]. *)
Definition slurm_request : ViewRequest :=
  {| vr_scheduler := "slurm"; vr_queue := "RAM";
     vr_num_jobs := Data (PyInt 3); vr_cores_per_job := Data (PyInt 1);
     vr_resources := "account=alice;timelimit=7-00:00:00;mem=20GB";
     vr_profile := "/home/alice/.ipython/" |}.

End Example.

(** ** Further inputs for the statements *)

Module Inputs.

(** [Settings(max_jobs=16)]: no [scheduler]. *)
Definition no_scheduler : World :=
  set_heap {[ 0%nat := [("max_jobs", PyInt 16)] ]} Example.world.

(** [settings.scheduler = 'SGE'], the spelling of the comment on line 9. *)
Definition upper_case : World :=
  set_heap {[ 0%nat := [("scheduler", PyStr "SGE")] ]} Example.world.

(** [Settings(scheduler='slurm')] *)
Definition slurm_only : World :=
  set_heap {[ 0%nat := [("scheduler", PyStr "slurm")] ]} Example.world.

(** [Settings(scheduler='sge', max_jobs='16')]: the bound is a string. *)
Definition string_max_jobs : World :=
  set_heap {[ 0%nat := [("scheduler", PyStr "sge"); ("max_jobs", PyStr "16")] ]}
    Example.world.

(** [Settings(scheduler='slurm', max_jobs=16, cores_per_job=3)] *)
Definition with_cores : World :=
  set_heap {[ 0%nat := [("scheduler", PyStr "slurm"); ("max_jobs", PyInt 16);
                        ("cores_per_job", PyInt 3)] ]} Example.world.

(** Two instances: the settings of the example and a [Settings(scheduler='sge')]. *)
Definition two_instances : World :=
  set_heap {[ 0%nat := Example.settings;
              1%nat := [("scheduler", PyStr "sge")] ]} Example.world.

(** A process environment without [USER]. *)
Definition no_user : World :=
  {| heap := ∅; environ := ∅; home := "/home/alice";
     files := ∅; writable := λ _, true; stdout := ""; views := [] |}.

End Inputs.

(** * Properties *)

(** ** The monad *)

Lemma bind_unfold {A B} (m : Py A) (f : A → Py B) (w : World) :
  (m ≫= f) w =
  match m w with
  | (Return a, w') => f a w'
  | (Raise e, w') => (Raise e, w')
  end.
Proof. reflexivity. Qed.

Lemma bind_Return {A B} (m : Py A) (f : A → Py B) w a w1 :
  m w = (Return a, w1) → (m ≫= f) w = f a w1.
Proof. intros H. by rewrite bind_unfold, H. Qed.

(** ** Dictionaries *)

Lemma dict_get_set_eq k v d : dict_get k (dict_set k v d) = Some v.
Proof.
  induction d as [|[k' v'] d IH]; simpl.
  - by rewrite decide_True.
  - destruct (decide (k = k')) as [->|Hne]; simpl.
    + by rewrite decide_True.
    + by rewrite decide_False.
Qed.

Lemma dict_get_set_ne k k' v d :
  k' ≠ k → dict_get k' (dict_set k v d) = dict_get k' d.
Proof.
  intros Hne. induction d as [|[k0 v0] d IH]; simpl.
  - by rewrite decide_False.
  - destruct (decide (k = k0)) as [->|Hk]; simpl.
    + by rewrite !decide_False.
    + by rewrite IH.
Qed.

(** ** [min] *)

Lemma py_min_int (n m : Z) w :
  py_min n (Data (PyInt m)) w = (Return (Data (PyInt (Z.min n m))), w).
Proof.
  unfold py_min, mret, Py_ret. do 3 f_equal.
  destruct (Z.ltb_spec m n).
  - by rewrite Z.min_r by lia.
  - by rewrite Z.min_l by lia.
Qed.

Lemma py_min_world n m r w w' : py_min n m w = (r, w') → w' = w.
Proof.
  destruct m as [[]|]; simpl; unfold mret, Py_ret, raise; congruence.
Qed.

Section ClusterFacts.
Context {Param Res : Type}.
Implicit Types (function : Param → Res) (parameter_list : list Param).
Implicit Types (args : list PyObj) (kwargs : gmap string PyObj) (w : World).

(** Claim C5.  For a parameter list of length [n] and an integer
    [max_jobs] of [m], both backends ask the scheduler for [min n m]
    jobs: [ClusterRunSGE] always, [ClusterRunSlurm] whenever the
    environment names the user; so for [n <= m] they ask for [n]. *)
Theorem num_jobs_is_min function parameter_list (m : Z) cores_per_job mem w :
  let n := Z.of_nat (length parameter_list) in
  ClusterRunSGE function parameter_list (Data (PyInt m)) cores_per_job w =
    (Return (map function parameter_list),
     set_views (views w ++
       [{| vr_scheduler := "sge"; vr_queue := "RAM.q";
           vr_num_jobs := Data (PyInt (Z.min n m));
           vr_cores_per_job := cores_per_job;
           vr_resources := "pename=python-round-robin";
           vr_profile := home w +:+ "/.ipython/" |}]) w)
  ∧ (∀ user, environ w !! "USER" = Some user →
     ∃ req,
       ClusterRunSlurm function parameter_list (Data (PyInt m)) cores_per_job mem w =
         (Return (map function parameter_list), set_views (views w ++ [req]) w)
       ∧ vr_scheduler req = "slurm"
       ∧ vr_num_jobs req = Data (PyInt (Z.min n m)))
  ∧ (n ≤ m → Z.min n m = n).
Proof.
  intros n. split; [|split].
  - unfold ClusterRunSGE. fold n.
    rewrite (bind_Return _ _ _ _ _ (py_min_int n m w)). reflexivity.
  - intros user Huser. unfold ClusterRunSlurm. fold n.
    rewrite (bind_Return _ _ _ _ _ (py_min_int n m w)).
    rewrite bind_unfold. simpl.
    rewrite bind_unfold. unfold os_environ. rewrite Huser.
    rewrite bind_unfold.
    destruct mem as [d|l]; simpl; eexists; split_and!; reflexivity.
  - lia.
Qed.
End ClusterFacts.

(** ** Keywords *)

Lemma keywords_accepted {A} (explicit : list (string * PyObj))
    (kwargs : gmap string PyObj) (k : gmap string PyObj → Py A) (w : World) :
  (kw ← merge_keywords explicit kwargs; bind_keywords explicit.*1 kw;; k kw) w =
  if decide (kwargs = ∅) then k (list_to_map explicit) w else (Raise TypeError, w).
Proof.
  rewrite bind_unfold. unfold merge_keywords.
  destruct (decide (kwargs = ∅)) as [->|Hne].
  - rewrite bool_decide_eq_false_2.
    2:{ rewrite Exists_exists. intros (kv & _ & Hs).
        rewrite lookup_empty in Hs. by destruct Hs. }
    unfold mret at 1, Py_ret at 1. rewrite (right_id_L ∅ (∪)).
    rewrite bind_unfold. unfold bind_keywords.
    rewrite bool_decide_eq_true_2; [done|].
    by rewrite dom_list_to_map_L.
  - case_bool_decide as Hex; [done|].
    unfold mret at 1, Py_ret at 1. rewrite bind_unfold. unfold bind_keywords.
    rewrite bool_decide_eq_false_2; [done|].
    intros Hsub. apply map_choose in Hne as (key & v & Hkey).
    assert (key ∈ dom (list_to_map explicit ∪ kwargs)) as Hin.
    { rewrite dom_union_L. apply elem_of_union_r, elem_of_dom. eauto. }
    apply Hsub in Hin. rewrite elem_of_list_to_set in Hin.
    apply list_elem_of_fmap in Hin as (kv & -> & Hkv).
    apply Hex, Exists_exists. exists kv. split; [by apply list_elem_of_In|eauto].
Qed.

(** ** [ClusterRun_resolve] only reads the world *)

Ltac py_unfold :=
  unfold mbind, Py_bind, mret, Py_ret, raise, get_world in *.

Lemma getattr_world o name x w w' : getattr o name w = (x, w') → w' = w.
Proof.
  unfold getattr. py_unfold. repeat case_match; congruence.
Qed.

Lemma mapping_world key x w w' : mapping key w = (x, w') → w' = w.
Proof.
  unfold mapping. py_unfold. repeat case_match; congruence.
Qed.

Lemma obj_dict_world o x w w' : obj_dict o w = (x, w') → w' = w.
Proof.
  unfold obj_dict. py_unfold. repeat case_match; congruence.
Qed.

Lemma ClusterRun_resolve_world args kwargs x w w' :
  ClusterRun_resolve args kwargs w = (x, w') → w' = w.
Proof.
  unfold ClusterRun_resolve. rewrite bind_unfold.
  destruct (kwargs !! "settings") as [settings|].
  - rewrite bind_unfold.
    destruct (getattr settings "scheduler" w) as [[sch|e] w1] eqn:E1;
      apply getattr_world in E1 as ->; [|congruence].
    rewrite bind_unfold.
    destruct (mapping sch w) as [[b|e] w1] eqn:E2;
      apply mapping_world in E2 as ->; [|congruence].
    rewrite bind_unfold.
    destruct (obj_dict settings w) as [[d|e] w1] eqn:E3;
      apply obj_dict_world in E3 as ->; [|congruence].
    py_unfold. repeat case_match. congruence.
  - py_unfold. repeat case_match. congruence.
Qed.

Section ClusterRunFacts.
Context {Param Res : Type}.
Implicit Types (function : Param → Res) (parameter_list : list Param).
Implicit Types (args : list PyObj) (kwargs : gmap string PyObj) (w : World).

(** [ClusterRun] is its resolution followed by one backend call, which
    goes through exactly when no keyword is left over. *)
Lemma ClusterRun_unfold function parameter_list args kwargs w :
  ClusterRun function parameter_list args kwargs w =
  match ClusterRun_resolve args kwargs w with
  | (Return r, _) =>
      if decide (r_kwargs r = ∅) then
        match r_dispatch r with
        | SGE => ClusterRunSGE function parameter_list
                   (r_max_jobs r) (r_cores_per_job r) w
        | Slurm => ClusterRunSlurm function parameter_list
                     (r_max_jobs r) (r_cores_per_job r) (r_mem r) w
        end
      else (Raise TypeError, w)
  | (Raise e, _) => (Raise e, w)
  end.
Proof.
  unfold ClusterRun. rewrite bind_unfold.
  destruct (ClusterRun_resolve args kwargs w) as [[r|e] w1] eqn:E;
    apply ClusterRun_resolve_world in E as ->; [|done].
  destruct (decide (r_dispatch r = SGE)) as [HS|HS].
  - rewrite HS. unfold call_backend.
    rewrite (keywords_accepted [("max_jobs", _); ("cores_per_job", _)]).
    by case_decide.
  - destruct (r_dispatch r); [done|]. unfold call_backend.
    rewrite (keywords_accepted [("max_jobs", _); ("cores_per_job", _); ("mem", _)]).
    by case_decide.
Qed.

(** Without a [settings] keyword the backend is SGE. *)
Lemma ClusterRun_resolve_no_settings args kwargs w :
  kwargs !! "settings" = None →
  ∃ r, ClusterRun_resolve args kwargs w = (Return r, w) ∧ r_dispatch r = SGE.
Proof.
  intros Hs. unfold ClusterRun_resolve. rewrite bind_unfold, Hs.
  py_unfold. repeat case_match. eauto.
Qed.

(** With a [settings] instance that has no [scheduler], line 148 raises:
    the attribute is read without the membership test that guards
    [max_jobs], [cores_per_job] and [mem] on lines 149-154. *)
Lemma ClusterRun_settings_without_scheduler function parameter_list
    args kwargs w l :
  kwargs !! "settings" = Some (Inst l) →
  dict_get "scheduler" (instance_dict w l) = None →
  ClusterRun function parameter_list args kwargs w =
    (Raise (AttributeError "scheduler"), w).
Proof.
  intros Hs Hd. rewrite ClusterRun_unfold.
  unfold ClusterRun_resolve. rewrite bind_unfold, Hs, bind_unfold.
  unfold getattr. rewrite bind_unfold. simpl. by rewrite Hd.
Qed.
End ClusterRunFacts.

(** Claim C1 (SGE is the default backend), at the input where the code
    departs from it: [ClusterRun] called with a [Settings(max_jobs=16)],
    which has no [scheduler] attribute, does not fall back to SGE but
    raises [AttributeError] at line 148, before any request is made. *)
Theorem ClusterRun_settings_without_scheduler_raises :
  let run :=
    (s ← Settings.__init__ [("max_jobs", PyInt 16)];
     ClusterRun (Example.RunMyAnalysis []) Example.subs []
       {[ "settings" := s ]}) Example.world in
  run.1 = Raise (AttributeError "scheduler") ∧ views run.2 = [].
Proof. split; reflexivity. Qed.

(** ** Resolution of the resource parameters *)

Lemma positional_or_keyword_value args i name x kwargs :
  (positional_or_keyword args i name x kwargs).1 =
  default x (posarg args i ∪ kwargs !! name).
Proof.
  unfold positional_or_keyword.
  by destruct (posarg args i), (kwargs !! name).
Qed.

Lemma positional_or_keyword_rest args i name x kwargs name' :
  name' ≠ name →
  (positional_or_keyword args i name x kwargs).2 !! name' = kwargs !! name'.
Proof.
  intros Hne. unfold positional_or_keyword.
  destruct (posarg args i); [done|].
  destruct (kwargs !! name); [|done]. by apply lookup_delete_ne.
Qed.

Lemma settings_or_value w kwargs l name x :
  kwargs !! "settings" = Some (Inst l) →
  settings_or (instance_dict w l) name x =
  default x (settings_attr w kwargs name).
Proof.
  intros Hs. unfold settings_or, settings_attr. rewrite Hs.
  by destruct (dict_get name (instance_dict w l)).
Qed.

Lemma default_union {A} (x : A) (o1 o2 : option A) :
  default (default x o2) o1 = default x (o1 ∪ o2).
Proof. by destruct o1, o2. Qed.

Ltac resolve_pairs :=
  repeat match goal with
         | H : positional_or_keyword _ _ _ _ _ = _ |- _ => rewrite H; simpl
         end.

(** The shape of a successful resolution: the settings (if any) set the
    defaults and leave the keyword dictionary, then each parameter is taken
    from the positional arguments or the keywords. *)
Lemma ClusterRun_resolve_Return args kwargs w r w' :
  ClusterRun_resolve args kwargs w = (Return r, w') →
  ∃ b kw,
    (∀ name, name ≠ "settings" → kw !! name = kwargs !! name) ∧
    let x1 := default (Data (PyInt 100)) (settings_attr w kwargs "max_jobs") in
    let x2 := default (Data (PyInt 1)) (settings_attr w kwargs "cores_per_job") in
    let x3 := default (Data (PyStr "5GB")) (settings_attr w kwargs "mem") in
    let p1 := positional_or_keyword args 2 "max_jobs" x1 kw in
    let p2 := positional_or_keyword args 3 "cores_per_job" x2 p1.2 in
    let p3 := positional_or_keyword args 4 "mem" x3 p2.2 in
    r = {| r_dispatch := b; r_max_jobs := p1.1; r_cores_per_job := p2.1;
           r_mem := p3.1; r_kwargs := p3.2 |}.
Proof.
  intros H. unfold ClusterRun_resolve in H. rewrite bind_unfold in H.
  destruct (kwargs !! "settings") as [settings|] eqn:Hs.
  - rewrite bind_unfold in H.
    destruct (getattr settings "scheduler" w) as [[sch|e] w1] eqn:E1; [|done].
    rewrite bind_unfold in H.
    destruct (mapping sch w1) as [[b|e] w2] eqn:E2; [|done].
    rewrite bind_unfold in H.
    destruct (obj_dict settings w2) as [[d|e] w3] eqn:E3; [|done].
    apply getattr_world in E1 as ->. apply mapping_world in E2 as ->.
    destruct settings as [?|l]; [done|].
    unfold obj_dict in E3. py_unfold. simplify_eq.
    exists b, (delete "settings" kwargs).
    split; [by intros; apply lookup_delete_ne|].
    rewrite <-!(settings_or_value _ kwargs l) by done.
    simpl. repeat case_match. simplify_eq/=. by resolve_pairs.
  - py_unfold. unfold settings_attr. rewrite Hs.
    exists SGE, kwargs. split; [done|].
    simpl. repeat case_match. simplify_eq/=. by resolve_pairs.
Qed.

(** Keywords other than the four that [ClusterRun] consumes are left in
    place. *)
Lemma ClusterRun_resolve_rest args kwargs w r w' name :
  ClusterRun_resolve args kwargs w = (Return r, w') →
  name ≠ "settings" → name ≠ "max_jobs" → name ≠ "cores_per_job" →
  name ≠ "mem" →
  r_kwargs r !! name = kwargs !! name.
Proof.
  intros (b & kw & Hkw & ->)%ClusterRun_resolve_Return ????. simpl.
  rewrite !positional_or_keyword_rest by done. by apply Hkw.
Qed.

(** ** The backends *)

Lemma format_total o w : ∃ s, format o w = (Return s, w).
Proof. destruct o; simpl; eauto. Qed.

Section BackendFacts.
Context {Param Res : Type}.
Implicit Types (function : Param → Res) (parameter_list : list Param).
Implicit Types (args : list PyObj) (kwargs : gmap string PyObj) (w : World).

Lemma ClusterRunSGE_Return function parameter_list max_jobs cores_per_job
    w res w1 :
  ClusterRunSGE function parameter_list max_jobs cores_per_job w =
    (Return res, w1) →
  ∃ num_jobs,
    py_min (Z.of_nat (length parameter_list)) max_jobs w = (Return num_jobs, w)
    ∧ res = map function parameter_list
    ∧ w1 = set_views (views w ++
        [{| vr_scheduler := "sge"; vr_queue := "RAM.q";
            vr_num_jobs := num_jobs; vr_cores_per_job := cores_per_job;
            vr_resources := "pename=python-round-robin";
            vr_profile := home w +:+ "/.ipython/" |}]) w.
Proof.
  unfold ClusterRunSGE. rewrite bind_unfold.
  destruct (py_min _ max_jobs w) as [[num_jobs|e] w2] eqn:E; [|done].
  apply py_min_world in E as Hw. subst w2.
  intros [= <- <-]. eauto.
Qed.

Lemma ClusterRunSlurm_Return function parameter_list max_jobs cores_per_job
    mem w res w1 :
  ClusterRunSlurm function parameter_list max_jobs cores_per_job mem w =
    (Return res, w1) →
  ∃ num_jobs user memstr,
    py_min (Z.of_nat (length parameter_list)) max_jobs w = (Return num_jobs, w)
    ∧ environ w !! "USER" = Some user
    ∧ format mem w = (Return memstr, w)
    ∧ res = map function parameter_list
    ∧ w1 = set_views (views w ++
        [{| vr_scheduler := "slurm"; vr_queue := "RAM";
            vr_num_jobs := num_jobs; vr_cores_per_job := cores_per_job;
            vr_resources :=
              "account=" +:+ user +:+ ";timelimit=7-00:00:00;mem=" +:+ memstr;
            vr_profile := home w +:+ "/.ipython/" |}]) w.
Proof.
  unfold ClusterRunSlurm. rewrite bind_unfold.
  destruct (py_min _ max_jobs w) as [[num_jobs|e] w2] eqn:E; [|done].
  apply py_min_world in E as Hw. subst w2.
  rewrite bind_unfold. simpl. rewrite bind_unfold. unfold os_environ.
  destruct (environ w !! "USER") as [user|] eqn:Hu; [|done].
  rewrite bind_unfold.
  destruct (format_total mem w) as [memstr Hm]. rewrite Hm.
  intros [= <- <-]. exists num_jobs, user, memstr. done.
Qed.

Lemma ClusterRunSlurm_run function parameter_list max_jobs cores_per_job
    mem w num_jobs user memstr :
  py_min (Z.of_nat (length parameter_list)) max_jobs w = (Return num_jobs, w) →
  environ w !! "USER" = Some user →
  format mem w = (Return memstr, w) →
  ClusterRunSlurm function parameter_list max_jobs cores_per_job mem w =
    (Return (map function parameter_list),
     set_views (views w ++
       [{| vr_scheduler := "slurm"; vr_queue := "RAM";
           vr_num_jobs := num_jobs; vr_cores_per_job := cores_per_job;
           vr_resources :=
             "account=" +:+ user +:+ ";timelimit=7-00:00:00;mem=" +:+ memstr;
           vr_profile := home w +:+ "/.ipython/" |}]) w).
Proof.
  intros Hmin Hu Hf. unfold ClusterRunSlurm.
  rewrite (bind_Return _ _ _ _ _ Hmin).
  rewrite bind_unfold. simpl. rewrite bind_unfold. unfold os_environ.
  rewrite Hu. by rewrite bind_unfold, Hf.
Qed.

Lemma ClusterRunSlurm_KeyError function parameter_list max_jobs cores_per_job
    mem w num_jobs :
  py_min (Z.of_nat (length parameter_list)) max_jobs w = (Return num_jobs, w) →
  environ w !! "USER" = None →
  ClusterRunSlurm function parameter_list max_jobs cores_per_job mem w =
    (Raise (KeyError (PyStr "USER")), w).
Proof.
  intros Hmin Hu. unfold ClusterRunSlurm.
  rewrite (bind_Return _ _ _ _ _ Hmin).
  rewrite bind_unfold. simpl. rewrite bind_unfold. unfold os_environ.
  by rewrite Hu.
Qed.

(** What a returning [ClusterRun] has done: nothing but one request, and
    the results are those of [function], in the order of the parameters. *)
Lemma ClusterRun_Return function parameter_list args kwargs w res w1 :
  ClusterRun function parameter_list args kwargs w = (Return res, w1) →
  res = map function parameter_list
  ∧ (∃ req, w1 = set_views (views w ++ [req]) w)
  ∧ kwargs !! "function" = None ∧ kwargs !! "parameter_list" = None.
Proof.
  rewrite ClusterRun_unfold.
  destruct (ClusterRun_resolve args kwargs w) as [[r|e] w2] eqn:E; [|done].
  case_decide as Hk; [|done]. intros H.
  assert (res = map function parameter_list ∧
          ∃ req, w1 = set_views (views w ++ [req]) w) as [-> Hreq].
  { destruct (r_dispatch r).
    - apply ClusterRunSGE_Return in H as (? & _ & -> & ->). eauto.
    - apply ClusterRunSlurm_Return in H as (? & ? & ? & _ & _ & _ & -> & ->).
      eauto. }
  split_and!; [done..| |].
  - by rewrite <-(ClusterRun_resolve_rest _ _ _ _ _ "function" E), Hk.
  - by rewrite <-(ClusterRun_resolve_rest _ _ _ _ _ "parameter_list" E), Hk.
Qed.
End BackendFacts.

(** ** Precedence of the resource parameters *)

Section PrecedenceFacts.
Context {Param Res : Type}.

(** Claim C6.  When [ClusterRun] reaches its backend call, each of
    [max_jobs], [cores_per_job] and [mem] is the positional argument if
    there is one, else the keyword argument, else the attribute of the
    [settings] instance, else 100, 1 and ['5GB']; so a [cores_per_job]
    keyword wins over the one in [settings]; and a call that returns has
    asked the scheduler for the [cores_per_job] and the job bound so
    resolved.  ([args] holds what follows [function] and [parameter_list],
    so [args !! 0], [args !! 1] and [args !! 2] are the source's [args[2]],
    [args[3]] and [args[4]]; [o1 ∪ o2] on options is [o1] when it is
    defined, else [o2].) *)
Theorem ClusterRun_resolve_precedence args kwargs w r w' :
  ClusterRun_resolve args kwargs w = (Return r, w') →
  r_max_jobs r =
    default (Data (PyInt 100))
      (args !! 0%nat ∪ kwargs !! "max_jobs" ∪ settings_attr w kwargs "max_jobs")
  ∧ r_cores_per_job r =
    default (Data (PyInt 1))
      (args !! 1%nat ∪ kwargs !! "cores_per_job"
       ∪ settings_attr w kwargs "cores_per_job")
  ∧ r_mem r =
    default (Data (PyStr "5GB"))
      (args !! 2%nat ∪ kwargs !! "mem" ∪ settings_attr w kwargs "mem")
  ∧ (∀ v, args !! 1%nat = None → kwargs !! "cores_per_job" = Some v →
          r_cores_per_job r = v)
  ∧ (∀ (function : Param → Res) (parameter_list : list Param) res w1,
       ClusterRun function parameter_list args kwargs w = (Return res, w1) →
       ∃ req,
         w1 = set_views (views w ++ [req]) w
         ∧ vr_cores_per_job req = r_cores_per_job r
         ∧ py_min (Z.of_nat (length parameter_list)) (r_max_jobs r) w =
             (Return (vr_num_jobs req), w)).
Proof.
  intros E. split_and!.
  1-4: apply ClusterRun_resolve_Return in E as (b & kw & Hkw & ->); simpl;
    rewrite !positional_or_keyword_value, ?positional_or_keyword_rest by done;
    rewrite !Hkw by done; rewrite !default_union.
  - done.
  - done.
  - done.
  - change (posarg args 3) with (args !! 1%nat). intros v -> ->.
    by destruct (settings_attr w kwargs "cores_per_job").
  - intros function parameter_list res w1 H.
    apply ClusterRun_resolve_world in E as Hw. subst w'.
    rewrite ClusterRun_unfold, E in H. case_decide; [|done].
    destruct (r_dispatch r).
    + apply ClusterRunSGE_Return in H as (num_jobs & Hmin & _ & ->).
      by eexists.
    + apply ClusterRunSlurm_Return in H
        as (num_jobs & user & mem & Hmin & _ & _ & _ & ->).
      by eexists.
Qed.
End PrecedenceFacts.

(** ** Counting and listing failures *)

Section CheckedFacts.
Context {Param Res : Type} `{!Str Param, !Truth Res}.
Implicit Types (function : Param → Res) (parameter_list : list Param).
Implicit Types (args : list PyObj) (kwargs : gmap string PyObj) (w : World).
Implicit Types (res : list Res).

Lemma sum_not_bool res :
  sum_list (map (λ b, Nat.b2n (negb (truth b))) res) = length (falsy res).
Proof.
  unfold falsy. induction res as [|b res IH]; [done|]. simpl.
  destruct (truth b); simpl; by rewrite IH.
Qed.

Lemma all_truthy_falsy res : forallb truth res = true ↔ falsy res = [].
Proof.
  unfold falsy. induction res as [|b res IH]; [done|]. simpl.
  destruct (truth b); simpl; [done|]. split; discriminate.
Qed.

Lemma failed_parameters_map function (pre parameter_list : list Param) w :
  mapM (M := Py)
    (λ i, match (pre ++ parameter_list) !! i with
          | Some p => mret (str p)
          | None => raise IndexError
          end)
    (List.filter
       (λ i, match map function (pre ++ parameter_list) !! i with
             | Some b => negb (truth b)
             | None => false
             end)
       (seq (length pre) (length parameter_list))) w =
  (Return (map str
     (List.filter (λ p, negb (truth (function p))) parameter_list)), w).
Proof.
  revert pre. induction parameter_list as [|p ps IH]; intros pre; [done|].
  specialize (IH (pre ++ [p])).
  rewrite <-app_assoc, length_app, Nat.add_1_r in IH. simpl in IH.
  assert (map function (pre ++ p :: ps) !! length pre = Some (function p))
    as Hres.
  { rewrite map_app, lookup_app_r by (by rewrite length_map).
    by rewrite length_map, Nat.sub_diag. }
  assert ((pre ++ p :: ps) !! length pre = Some p) as Hp
    by (by apply list_lookup_middle).
  simpl. rewrite Hres.
  destruct (truth (function p)); simpl; [done|].
  rewrite bind_unfold, Hp. simpl. by rewrite bind_unfold, IH.
Qed.

Lemma failed_parameters_Return function parameter_list w :
  failed_parameters parameter_list (map function parameter_list) w =
  (Return (map str
     (List.filter (λ p, negb (truth (function p))) parameter_list)), w).
Proof.
  unfold failed_parameters. rewrite length_map.
  apply (failed_parameters_map function []).
Qed.

Lemma named_parameters_Return kwargs w :
  kwargs !! "function" = None → kwargs !! "parameter_list" = None →
  named_parameters kwargs w = (Return (), w).
Proof.
  intros H1 H2. unfold named_parameters.
  rewrite bool_decide_eq_false_2; [done|].
  rewrite H1, H2. by intros [[]|[]].
Qed.

(** [ClusterChecked] once [ClusterRun] has returned. *)
Lemma ClusterChecked_unfold function parameter_list args kwargs w res w1 :
  ClusterRun function parameter_list args kwargs w = (Return res, w1) →
  ClusterChecked function parameter_list args kwargs w =
  if forallb truth res then
    (Return (),
     set_stdout (stdout w1 +:+
       ("All " +:+ str (length res) +:+ " jobs successful.") +:+ nl) w1)
  else if decide (length (falsy res) = length res) then
    (Raise (RuntimeError
       ("All " +:+ str (length (falsy res)) +:+ " jobs failed!")), w1)
  else
    (Raise (RuntimeError
       (str (length (falsy res)) +:+ " of " +:+ str (length res) +:+
        " jobs failed!")),
     set_stdout (stdout w1 +:+
       ("Error on job parameters:" +:+ nl +:+ "  " +:+
        String.concat (nl +:+ "  ")
          (map str (List.filter (λ p, negb (truth (function p)))
                      parameter_list))) +:+ nl) w1).
Proof.
  intros H. destruct (ClusterRun_Return _ _ _ _ _ _ _ H) as (Hres & _ & H1 & H2).
  unfold ClusterChecked.
  rewrite (bind_Return _ _ _ _ _ (named_parameters_Return _ w H1 H2)).
  rewrite (bind_Return _ _ _ _ _ H).
  destruct (forallb truth res); [done|].
  rewrite sum_not_bool. case_decide; [done|].
  subst res. rewrite bind_unfold, failed_parameters_Return. done.
Qed.

Lemma falsy_all res : Forall (λ b, truth b = false) res → falsy res = res.
Proof.
  unfold falsy. induction 1 as [|b res Hb _ IH]; [done|].
  simpl. by rewrite Hb, IH.
Qed.

(** The parameters that sit at the positions of the falsy results are the
    parameters on which [function] is falsy. *)
Lemma failed_by_position function parameter_list :
  map (λ pb, str pb.1)
    (List.filter (λ pb, negb (truth pb.2))
       (zip parameter_list (map function parameter_list))) =
  map str (List.filter (λ p, negb (truth (function p))) parameter_list).
Proof.
  induction parameter_list as [|p ps IH]; [done|]. simpl.
  destruct (truth (function p)); simpl; by rewrite IH.
Qed.

(** Claim C2.  If [ClusterRun] returns [n] results of which [k] are
    falsy, with [0 < k < n], then [ClusterChecked] prints the parameters
    found in the full [parameter_list] at the positions of the falsy
    results, in order, and then raises [RuntimeError] with the message
    ["k of n jobs failed!"]. *)
Theorem ClusterChecked_some_failed function parameter_list args kwargs
    w res w1 :
  ClusterRun function parameter_list args kwargs w = (Return res, w1) →
  let k := length (falsy res) in
  let n := length res in
  (0 < k < n)%nat →
  length res = length parameter_list
  ∧ ClusterChecked function parameter_list args kwargs w =
    (Raise (RuntimeError (str k +:+ " of " +:+ str n +:+ " jobs failed!")),
     set_stdout (stdout w1 +:+
       ("Error on job parameters:" +:+ nl +:+ "  " +:+
        String.concat (nl +:+ "  ")
          (map (λ pb, str pb.1)
             (List.filter (λ pb, negb (truth pb.2))
                (zip parameter_list res)))) +:+ nl) w1).
Proof.
  intros H k n [Hk Hn].
  destruct (ClusterRun_Return _ _ _ _ _ _ _ H) as (Hres & _).
  split; [by rewrite Hres, length_map|].
  rewrite (ClusterChecked_unfold _ _ _ _ _ _ _ H).
  rewrite <-failed_by_position, <-Hres.
  destruct (forallb truth res) eqn:Hall.
  { apply all_truthy_falsy in Hall. subst k. rewrite Hall in Hk.
    simpl in Hk. lia. }
  fold k n. case_decide; [lia|done].
Qed.

(** Claim C3.  If [ClusterRun] returns a non-empty list of results that
    are all falsy, [ClusterChecked] raises [RuntimeError] with the message
    ["All n jobs failed!"], [n] being the number of results; nothing is
    printed. *)
Theorem ClusterChecked_all_failed function parameter_list args kwargs
    w res w1 :
  ClusterRun function parameter_list args kwargs w = (Return res, w1) →
  res ≠ [] →
  Forall (λ b, truth b = false) res →
  ClusterChecked function parameter_list args kwargs w =
    (Raise (RuntimeError ("All " +:+ str (length res) +:+ " jobs failed!")),
     w1).
Proof.
  intros H Hne Hall.
  rewrite (ClusterChecked_unfold _ _ _ _ _ _ _ H), (falsy_all _ Hall).
  destruct (forallb truth res) eqn:Hf.
  { apply all_truthy_falsy in Hf. rewrite falsy_all in Hf by done. done. }
  by rewrite decide_True.
Qed.

(** Claim C4.  If [ClusterRun] returns results that are all truthy,
    [ClusterChecked] raises nothing, prints ["All n jobs successful."]
    with [n] the length of [parameter_list], and returns [None]. *)
Theorem ClusterChecked_all_successful function parameter_list args kwargs
    w res w1 :
  ClusterRun function parameter_list args kwargs w = (Return res, w1) →
  Forall (λ b, truth b = true) res →
  ClusterChecked function parameter_list args kwargs w =
    (Return (),
     set_stdout (stdout w1 +:+
       ("All " +:+ str (length parameter_list) +:+ " jobs successful.") +:+
       nl) w1).
Proof.
  intros H Hall. rewrite (ClusterChecked_unfold _ _ _ _ _ _ _ H).
  apply ClusterRun_Return in H as (Hres & _).
  replace (forallb truth res) with true.
  - by rewrite Hres, length_map.
  - clear Hres. induction Hall as [|b res Hb _ IH]; [done|].
    simpl. by rewrite Hb.
Qed.
End CheckedFacts.

(** ** What [ClusterRun] can raise *)

Lemma ClusterRun_resolve_Raise args kwargs w e w' :
  ClusterRun_resolve args kwargs w = (Raise e, w') → dispatch_error e.
Proof.
  unfold ClusterRun_resolve, getattr, mapping, obj_dict. py_unfold.
  intros H. repeat case_match; by simplify_eq/=.
Qed.

Section RaiseFacts.
Context {Param Res : Type}.
Implicit Types (function : Param → Res) (parameter_list : list Param).
Implicit Types (args : list PyObj) (kwargs : gmap string PyObj) (w : World).

Lemma ClusterRun_Raise function parameter_list args kwargs w e w' :
  ClusterRun function parameter_list args kwargs w = (Raise e, w') →
  dispatch_error e.
Proof.
  rewrite ClusterRun_unfold.
  destruct (ClusterRun_resolve args kwargs w) as [[r|e'] w2] eqn:E.
  - case_decide as Hk; [|by intros [= <- _]].
    unfold ClusterRunSGE, ClusterRunSlurm, py_min, os_environ, Path_home,
      cluster_view, view_map, format.
    py_unfold. intros Hrun. repeat case_match; by simplify_eq/=.
  - intros [= <- _]. by eapply ClusterRun_resolve_Raise.
Qed.

(** Claim C8.  Take a call of [ClusterRun] whose resolution completes,
    leaves no keyword over and yields a job bound that [min] accepts.  If
    the backend is SGE the call returns after one request whose resources
    are the fixed ["pename=python-round-robin"], whatever [mem] was given:
    [mem] is not passed on.  If the backend is Slurm the call returns
    after one request whose resources are the user's account, the 7-day
    time limit and the text of the resolved [mem] (or raises [KeyError]
    when the environment has no [USER]).  So the request of a returning
    call carries [mem] exactly when the backend is Slurm. *)
Theorem ClusterRun_forwards_mem_to_slurm_only function parameter_list
    args kwargs w r w0 num_jobs :
  ClusterRun_resolve args kwargs w = (Return r, w0) →
  r_kwargs r = ∅ →
  py_min (Z.of_nat (length parameter_list)) (r_max_jobs r) w =
    (Return num_jobs, w) →
  let mem_text :=
    match r_mem r with
    | Data d => str d
    | Inst l => Settings.__str__ (instance_dict w l)
    end in
  let slurm_resources user :=
    "account=" +:+ user +:+ ";timelimit=7-00:00:00;mem=" +:+ mem_text in
  let request scheduler queue resources :=
    {| vr_scheduler := scheduler; vr_queue := queue;
       vr_num_jobs := num_jobs; vr_cores_per_job := r_cores_per_job r;
       vr_resources := resources;
       vr_profile := home w +:+ "/.ipython/" |} in
  match r_dispatch r with
  | SGE =>
      ClusterRun function parameter_list args kwargs w =
        (Return (map function parameter_list),
         set_views (views w ++
           [request "sge" "RAM.q" "pename=python-round-robin"]) w)
  | Slurm =>
      match environ w !! "USER" with
      | Some user =>
          ClusterRun function parameter_list args kwargs w =
            (Return (map function parameter_list),
             set_views (views w ++
               [request "slurm" "RAM" (slurm_resources user)]) w)
      | None =>
          ClusterRun function parameter_list args kwargs w =
            (Raise (KeyError (PyStr "USER")), w)
      end
  end
  ∧ (∀ res req,
       ClusterRun function parameter_list args kwargs w =
         (Return res, set_views (views w ++ [req]) w) →
       (r_dispatch r = Slurm ↔
        ∃ user, vr_resources req = slurm_resources user)).
Proof.
  intros E Hk Hmin mem_text slurm_resources request.
  apply ClusterRun_resolve_world in E as Hw. subst w0.
  rewrite ClusterRun_unfold, E, decide_True by done.
  assert (format (r_mem r) w = (Return mem_text, w)) as Hf
    by (unfold mem_text; by destruct (r_mem r)).
  destruct (r_dispatch r).
  - assert (ClusterRunSGE function parameter_list (r_max_jobs r)
              (r_cores_per_job r) w =
            (Return (map function parameter_list),
             set_views (views w ++
               [request "sge" "RAM.q" "pename=python-round-robin"]) w)) as ->.
    { unfold ClusterRunSGE. by rewrite (bind_Return _ _ _ _ _ Hmin). }
    split; [done|]. intros res req [= _ Hv].
    apply app_inv_head in Hv as [= <-].
    split; [done|]. by intros [user ?].
  - destruct (environ w !! "USER") as [user|] eqn:Hu.
    2:{ rewrite (ClusterRunSlurm_KeyError _ _ _ _ _ _ _ Hmin Hu).
        split; [done|discriminate]. }
    rewrite (ClusterRunSlurm_run _ _ _ _ _ _ _ _ _ Hmin Hu Hf).
    split; [done|]. intros res req [= _ Hv].
    apply app_inv_head in Hv as [= <-].
    split; [|done]. intros _. by exists user.
Qed.
End RaiseFacts.

Section EmptyFacts.
Context {Param Res : Type} `{!Str Param, !Truth Res}.
Implicit Types (function : Param → Res) (parameter_list : list Param).
Implicit Types (args : list PyObj) (kwargs : gmap string PyObj) (w : World).

Lemma ClusterChecked_Raise_empty function args kwargs w e w' :
  ClusterChecked function [] args kwargs w = (Raise e, w') →
  dispatch_error e.
Proof.
  unfold ClusterChecked. rewrite bind_unfold. unfold named_parameters.
  case_bool_decide; [by intros [= <- _]|].
  unfold mret at 1, Py_ret at 1. rewrite bind_unfold.
  destruct (ClusterRun function [] args kwargs w) as [[res|e'] w1] eqn:E.
  - apply ClusterRun_Return in E as (-> & _). done.
  - intros [= <- _]. by eapply ClusterRun_Raise.
Qed.

(** Claim C10.  On the empty parameter list, once [ClusterRun] returns,
    [ClusterChecked] returns normally after printing
    ["All 0 jobs successful."]; and whenever [ClusterChecked] raises a
    [RuntimeError], the parameter list was not empty. *)
Theorem ClusterChecked_empty function args kwargs w :
  (∀ res w1,
     ClusterRun function [] args kwargs w = (Return res, w1) →
     res = []
     ∧ ClusterChecked function [] args kwargs w =
       (Return (),
        set_stdout (stdout w1 +:+ "All 0 jobs successful." +:+ nl) w1))
  ∧ (∀ parameter_list msg w',
       ClusterChecked function parameter_list args kwargs w =
         (Raise (RuntimeError msg), w') →
       parameter_list ≠ []).
Proof.
  split.
  - intros res w1 H. rewrite (ClusterChecked_unfold _ _ _ _ _ _ _ H).
    apply ClusterRun_Return in H as (-> & _). done.
  - intros parameter_list msg w' H ->.
    by apply ClusterChecked_Raise_empty in H.
Qed.
End EmptyFacts.

(** ** The scheduler-specific variants *)

Lemma instance_dict_alloc d w l :
  l ≠ fresh (dom (heap w)) →
  instance_dict (alloc d w).2 l = instance_dict w l.
Proof.
  intros Hl. unfold instance_dict. simpl. by rewrite lookup_insert_ne.
Qed.

Lemma instance_dict_fresh w : instance_dict w (fresh (dom (heap w))) = [].
Proof.
  unfold instance_dict.
  by rewrite (not_elem_of_dom_1 (heap w) _ (is_fresh (dom (heap w)))).
Qed.

Section VariantFacts.
Context {Param Res : Type} `{!Str Param, !Truth Res}.
Implicit Types (function : Param → Res) (parameter_list : list Param).
Implicit Types (args : list PyObj) (kwargs : gmap string PyObj) (w : World).

Lemma forced_scheduler tag l w :
  dict_get "scheduler" (instance_dict (forced tag l w) l) = Some (PyStr tag).
Proof.
  unfold forced, instance_dict at 1. simpl.
  rewrite lookup_insert_eq. simpl. apply dict_get_set_eq.
Qed.

Lemma forced_other_attributes tag l w name :
  name ≠ "scheduler" →
  dict_get name (instance_dict (forced tag l w) l) =
  dict_get name (instance_dict w l).
Proof.
  intros Hne. unfold forced, instance_dict at 1. cbn [heap set_heap].
  rewrite lookup_insert_eq. cbn [default from_option id].
  rewrite dict_get_set_ne by done.
  destruct (decide (l = fresh (dom (heap w)))) as [->|Hl].
  - rewrite instance_dict_fresh. unfold instance_dict. simpl.
    by rewrite lookup_insert_eq.
  - by rewrite (instance_dict_alloc [] w l Hl).
Qed.

(** Claim C9.  Called with a [settings] instance [l], or with none (then
    [l] is the instance just created), [ClusterCheckedSGE] and
    [ClusterCheckedSlurm] are [ClusterChecked] on the same function,
    parameter list and positional arguments, with [settings] bound to
    [l], in the world where the [scheduler] of [l] has been set to
    ['sge'], resp. ['slurm'], whatever it was, and the other attributes
    of [l] are as before; keywords supplied by the caller are passed
    unchanged. *)
Theorem ClusterChecked_variants_force_scheduler function parameter_list
    args kwargs w l :
  kwargs !! "function" = None →
  kwargs !! "parameter_list" = None →
  kwargs !! "settings" = Some (Inst l)
  ∨ (kwargs !! "settings" = None ∧ l = fresh (dom (heap w))) →
  ClusterCheckedSGE function parameter_list args kwargs w =
    ClusterChecked function parameter_list args
      (<["settings" := Inst l]> kwargs) (forced "sge" l w)
  ∧ ClusterCheckedSlurm function parameter_list args kwargs w =
    ClusterChecked function parameter_list args
      (<["settings" := Inst l]> kwargs) (forced "slurm" l w)
  ∧ (∀ tag,
       dict_get "scheduler" (instance_dict (forced tag l w) l)
         = Some (PyStr tag)
       ∧ ∀ name, name ≠ "scheduler" →
           dict_get name (instance_dict (forced tag l w) l) =
           dict_get name (instance_dict w l))
  ∧ (kwargs !! "settings" = Some (Inst l) →
     <["settings" := Inst l]> kwargs = kwargs).
Proof.
  intros Hf Hp Hs.
  assert (default (Inst (fresh (dom (heap w)))) (kwargs !! "settings") = Inst l)
    as Hl by (by destruct Hs as [->|[-> ->]]).
  split_and!.
  - unfold ClusterCheckedSGE.
    rewrite (bind_Return _ _ _ _ _ (named_parameters_Return _ w Hf Hp)).
    rewrite bind_unfold. simpl. rewrite Hl. by rewrite bind_unfold.
  - unfold ClusterCheckedSlurm.
    rewrite (bind_Return _ _ _ _ _ (named_parameters_Return _ w Hf Hp)).
    rewrite bind_unfold. simpl. rewrite Hl. by rewrite bind_unfold.
  - intros tag. split; [apply forced_scheduler|].
    intros name. apply forced_other_attributes.
  - apply insert_id.
Qed.
End VariantFacts.

(** ** Saving and loading settings *)

Lemma of_bits_bits_of p : of_bits (bits_of p) = Some p.
Proof. induction p as [p IH|p IH|]; simpl; by rewrite ?IH. Qed.

Lemma codec_loads_dumps p : codec_loads (codec_dumps p) = Some p.
Proof.
  unfold codec_loads, codec_dumps. rewrite of_bits_bits_of. simpl.
  apply decode_encode.
Qed.

Section PickleFacts.
Context (pickle_dumps : Pickled → list Byte.byte).
Context (pickle_loads : list Byte.byte → option Pickled).
Hypothesis pickle_loads_dumps : ∀ p, pickle_loads (pickle_dumps p) = Some p.

Lemma Save_writable self filename w :
  writable w filename = true →
  ∃ w1, Settings.Save pickle_dumps self filename w = (Return (), w1).
Proof.
  intros Hw. unfold Settings.Save. rewrite bind_unfold. unfold open_wb.
  rewrite Hw. eauto.
Qed.

(** Claim C7.  With a codec whose [loads] undoes its [dumps], a
    [Save] of the instance [self] that returns, followed by [Load] of the
    same file, yields a new instance whose attributes and values are
    those of [self]; the instances that were there are as before. *)
Theorem Save_Load_roundtrip self filename w w1 :
  Settings.Save pickle_dumps self filename w = (Return (), w1) →
  ∃ loaded w2,
    Settings.Load pickle_loads filename w1 = (Return (Inst loaded), w2)
    ∧ (loaded ∉ dom (heap w1))
    ∧ instance_dict w2 loaded = instance_dict w self
    ∧ (∀ l, l ≠ loaded → instance_dict w2 l = instance_dict w l).
Proof.
  unfold Settings.Save. rewrite bind_unfold. unfold open_wb.
  destruct (writable w filename); [|done]. simpl.
  intros [= <-].
  exists (fresh (dom (heap w))). eexists.
  unfold Settings.Load. rewrite bind_unfold. unfold open_rb_read. simpl.
  rewrite lookup_insert_eq, pickle_loads_dumps. simpl.
  split_and!; [done|apply is_fresh| |].
  - unfold instance_dict at 1. simpl. by rewrite lookup_insert_eq.
  - intros l Hl. unfold instance_dict at 1. simpl.
    by rewrite lookup_insert_ne.
Qed.
End PickleFacts.

(** * The statements on the example of the header comment *)

Lemma num_jobs_is_min_witness :
  ∃ req,
    ClusterRunSlurm (Example.RunMyAnalysis []) Example.subs
      (Data (PyInt 16)) (Data (PyInt 1)) (Data (PyStr "20GB")) Example.world =
      (Return [true; true; true],
       set_views (views Example.world ++ [req]) Example.world)
    ∧ vr_scheduler req = "slurm"
    ∧ vr_num_jobs req = Data (PyInt 3).
Proof.
  destruct (num_jobs_is_min (Example.RunMyAnalysis []) Example.subs 16
              (Data (PyInt 1)) (Data (PyStr "20GB")) Example.world)
    as (_ & Hslurm & _).
  apply (Hslurm "alice"). reflexivity.
Defined.

Lemma ClusterRun_resolve_precedence_witness :
  (∃ r,
     ClusterRun_resolve [Data (PyInt 8)]
       {[ "settings" := Inst 0%nat; "max_jobs" := Data (PyInt 4);
          "cores_per_job" := Data (PyInt 8) ]} Inputs.with_cores =
       (Return r, Inputs.with_cores)
     ∧ r_max_jobs r = Data (PyInt 8)
     ∧ r_cores_per_job r = Data (PyInt 8)
     ∧ r_mem r = Data (PyStr "5GB"))
  ∧ (∃ r,
       ClusterRun_resolve [] {[ "settings" := Inst 0%nat ]} Inputs.with_cores =
         (Return r, Inputs.with_cores)
       ∧ r_max_jobs r = Data (PyInt 16)
       ∧ r_cores_per_job r = Data (PyInt 3)
       ∧ r_mem r = Data (PyStr "5GB")).
Proof.
  split.
  - set (kwargs := {[ "settings" := Inst 0%nat; "max_jobs" := Data (PyInt 4);
                      "cores_per_job" := Data (PyInt 8) ]} : gmap string PyObj).
    set (r := {| r_dispatch := Slurm; r_max_jobs := Data (PyInt 8);
                 r_cores_per_job := Data (PyInt 8);
                 r_mem := Data (PyStr "5GB");
                 r_kwargs := {[ "max_jobs" := Data (PyInt 4) ]} |}).
    assert (ClusterRun_resolve [Data (PyInt 8)] kwargs Inputs.with_cores =
            (Return r, Inputs.with_cores)) as Hr
      by (vm_compute; reflexivity).
    exists r. split; [exact Hr|].
    destruct (ClusterRun_resolve_precedence (Param := string) (Res := bool)
                [Data (PyInt 8)] kwargs _ r _ Hr)
      as (H1 & H2 & H3 & _).
    rewrite H1, H2, H3. vm_compute. auto.
  - set (kwargs := {[ "settings" := Inst 0%nat ]} : gmap string PyObj).
    set (r := {| r_dispatch := Slurm; r_max_jobs := Data (PyInt 16);
                 r_cores_per_job := Data (PyInt 3);
                 r_mem := Data (PyStr "5GB"); r_kwargs := ∅ |}).
    assert (ClusterRun_resolve [] kwargs Inputs.with_cores =
            (Return r, Inputs.with_cores)) as Hr
      by (vm_compute; reflexivity).
    exists r. split; [exact Hr|].
    destruct (ClusterRun_resolve_precedence (Param := string) (Res := bool)
                [] kwargs _ r _ Hr)
      as (H1 & H2 & H3 & _).
    rewrite H1, H2, H3. vm_compute. auto.
Defined.

Lemma ClusterChecked_some_failed_witness :
  let run :=
    ClusterChecked (Example.RunMyAnalysis ["R1644T"]) Example.subs [] ∅
      Example.world in
  run.1 = Raise (RuntimeError "1 of 3 jobs failed!")
  ∧ stdout run.2 = "Error on job parameters:" +:+ nl +:+ "  R1644T" +:+ nl.
Proof.
  destruct (ClusterChecked_some_failed
              (Example.RunMyAnalysis ["R1644T"]) Example.subs [] ∅
              Example.world [true; false; true]
              (set_views [Example.sge_request] Example.world))
    as [_ H].
  - reflexivity.
  - simpl. lia.
  - simpl. rewrite H. split; reflexivity.
Defined.

Lemma ClusterChecked_all_failed_witness :
  ClusterChecked (Example.RunMyAnalysis Example.subs) Example.subs [] ∅
    Example.world =
  (Raise (RuntimeError "All 3 jobs failed!"),
   set_views [Example.sge_request] Example.world).
Proof.
  apply (ClusterChecked_all_failed
           (Example.RunMyAnalysis Example.subs) Example.subs [] ∅
           Example.world [false; false; false]).
  - reflexivity.
  - discriminate.
  - repeat constructor.
Defined.

Lemma ClusterChecked_all_successful_witness :
  let run :=
    ClusterChecked (Example.RunMyAnalysis []) Example.subs [] ∅
      Example.world in
  run.1 = Return ()
  ∧ stdout run.2 = "All 3 jobs successful." +:+ nl.
Proof.
  simpl.
  rewrite (ClusterChecked_all_successful
             (Example.RunMyAnalysis []) Example.subs [] ∅
             Example.world [true; true; true]
             (set_views [Example.sge_request] Example.world)).
  - split; reflexivity.
  - reflexivity.
  - repeat constructor.
Defined.

Lemma ClusterRun_forwards_mem_to_slurm_only_witness :
  ClusterRun (Example.RunMyAnalysis []) Example.subs []
    {[ "mem" := Data (PyStr "20GB") ]} Example.world =
    (Return [true; true; true], set_views [Example.sge_request] Example.world)
  ∧ ClusterRun (Example.RunMyAnalysis []) Example.subs []
      {[ "settings" := Inst 0%nat ]} Example.world_with_settings =
    (Return [true; true; true],
     set_views [Example.slurm_request] Example.world_with_settings).
Proof.
  split.
  - destruct (ClusterRun_forwards_mem_to_slurm_only
                (Example.RunMyAnalysis []) Example.subs []
                {[ "mem" := Data (PyStr "20GB") ]} Example.world
                {| r_dispatch := SGE; r_max_jobs := Data (PyInt 100);
                   r_cores_per_job := Data (PyInt 1);
                   r_mem := Data (PyStr "20GB"); r_kwargs := ∅ |}
                Example.world (Data (PyInt 3))) as [H _].
    + vm_compute. reflexivity.
    + reflexivity.
    + reflexivity.
    + exact H.
  - destruct (ClusterRun_forwards_mem_to_slurm_only
                (Example.RunMyAnalysis []) Example.subs []
                {[ "settings" := Inst 0%nat ]} Example.world_with_settings
                {| r_dispatch := Slurm; r_max_jobs := Data (PyInt 16);
                   r_cores_per_job := Data (PyInt 1);
                   r_mem := Data (PyStr "20GB"); r_kwargs := ∅ |}
                Example.world_with_settings (Data (PyInt 3))) as [H _].
    + vm_compute. reflexivity.
    + reflexivity.
    + reflexivity.
    + exact H.
Defined.

Lemma ClusterChecked_variants_force_scheduler_witness :
  let run :=
    ClusterCheckedSGE (Example.RunMyAnalysis []) Example.subs []
      {[ "settings" := Inst 0%nat ]} Example.world_with_settings in
  run.1 = Return ()
  ∧ dict_get "scheduler" (instance_dict run.2 0%nat) = Some (PyStr "sge")
  ∧ views run.2 = [Example.sge_request].
Proof.
  destruct (ClusterChecked_variants_force_scheduler
              (Example.RunMyAnalysis []) Example.subs []
              {[ "settings" := Inst 0%nat ]} Example.world_with_settings 0%nat)
    as (H & _ & _ & _).
  - reflexivity.
  - reflexivity.
  - left. reflexivity.
  - simpl. rewrite H. vm_compute. auto.
Defined.

Lemma Save_Load_roundtrip_witness :
  let saved :=
    (Settings.Save codec_dumps 0%nat "my_analysis.pkl"
       Example.world_with_settings).2 in
  ∃ loaded w2,
    Settings.Load codec_loads "my_analysis.pkl" saved =
      (Return (Inst loaded), w2)
    ∧ instance_dict w2 loaded = Example.settings.
Proof.
  intros saved.
  destruct (Save_Load_roundtrip codec_dumps codec_loads codec_loads_dumps
              0%nat "my_analysis.pkl" Example.world_with_settings saved)
    as (loaded & w2 & HL & _ & Hd & _).
  - reflexivity.
  - exists loaded, w2. split; [exact HL|]. rewrite Hd. reflexivity.
Defined.

Lemma ClusterChecked_empty_witness :
  ClusterChecked (Example.RunMyAnalysis []) [] [] ∅ Example.world =
  (Return (),
   set_stdout ("All 0 jobs successful." +:+ nl)
     (set_views [{| vr_scheduler := "sge"; vr_queue := "RAM.q";
                    vr_num_jobs := Data (PyInt 0);
                    vr_cores_per_job := Data (PyInt 1);
                    vr_resources := "pename=python-round-robin";
                    vr_profile := "/home/alice/.ipython/" |}]
        Example.world)).
Proof.
  destruct (ClusterChecked_empty (Example.RunMyAnalysis []) [] ∅ Example.world)
    as [H _].
  destruct (H [] (set_views [{| vr_scheduler := "sge"; vr_queue := "RAM.q";
                    vr_num_jobs := Data (PyInt 0);
                    vr_cores_per_job := Data (PyInt 1);
                    vr_resources := "pename=python-round-robin";
                    vr_profile := "/home/alice/.ipython/" |}]
        Example.world)) as [_ Hc].
  - reflexivity.
  - exact Hc.
Defined.

(** * Further properties of the code *)

(** ** [Settings]: construction *)

Lemma dict_set_new k v d : k ∉ d.*1 → dict_set k v d = d ++ [(k, v)].
Proof.
  induction d as [|[k' v'] d IH]; [done|]. simpl. intros Hk.
  rewrite not_elem_of_cons in Hk. destruct Hk as [Hne Hk].
  rewrite decide_False by done. by rewrite IH.
Qed.

Lemma init_fold acc kwargs :
  NoDup (acc ++ kwargs).*1 →
  foldl (λ d kv, dict_set kv.1 kv.2 d) acc kwargs = acc ++ kwargs.
Proof.
  revert acc. induction kwargs as [|[k v] kwargs IH]; intros acc Hnd.
  { by rewrite app_nil_r. }
  simpl. rewrite dict_set_new.
  - rewrite IH; rewrite <-app_assoc; done.
  - rewrite fmap_app in Hnd. apply list.NoDup_app in Hnd as (_ & Hd & _).
    intros Hin. apply (Hd k Hin). simpl. left.
Qed.

Lemma getattr_Inst l name w :
  getattr (Inst l) name w =
  match dict_get name (instance_dict w l) with
  | Some v => (Return v, w)
  | None => (Raise (AttributeError name), w)
  end.
Proof. unfold getattr. rewrite bind_unfold. simpl. by case_match. Qed.

Lemma existsb_eqb_elem_of (k : string) (ks : list string) :
  existsb (String.eqb k) ks = true ↔ k ∈ ks.
Proof.
  induction ks as [|k' ks IH]; simpl.
  - split; [done|]. by intros ?%elem_of_nil.
  - rewrite orb_true_iff, IH, elem_of_cons, String.eqb_eq. done.
Qed.

(** Property X1.  [Settings(k1=v1, ...)] with distinct keywords, none of them
    [self], builds a new instance whose [__dict__] is exactly the keywords,
    in the order given, and leaves the instances that were there as they
    were; with a keyword [self] the call is a [TypeError] and builds
    nothing. *)
Theorem Settings_init_attributes kwargs w :
  NoDup kwargs.*1 →
  ("self" ∉ kwargs.*1 →
   ∃ l w',
     Settings.__init__ kwargs w = (Return (Inst l), w')
     ∧ (l ∉ dom (heap w))
     ∧ instance_dict w' l = kwargs
     ∧ (∀ l', l' ≠ l → instance_dict w' l' = instance_dict w l'))
  ∧ ("self" ∈ kwargs.*1 →
     Settings.__init__ kwargs w = (Raise TypeError, w)).
Proof.
  intros Hnd. unfold Settings.__init__. split.
  - intros Hself.
    destruct (existsb (String.eqb "self") kwargs.*1) eqn:E.
    { by apply existsb_eqb_elem_of in E. }
    exists (fresh (dom (heap w))), (alloc kwargs w).2.
    split; [by rewrite (init_fold [] kwargs Hnd)|].
    split_and!.
    + apply is_fresh.
    + unfold instance_dict. simpl. by rewrite lookup_insert_eq.
    + intros l' Hl'. by apply instance_dict_alloc.
  - intros Hself. apply existsb_eqb_elem_of in Hself. by rewrite Hself.
Qed.

(** ** [Settings]: saving and loading *)

Section PickleMore.
Context (pickle_dumps : Pickled → list Byte.byte).
Context (pickle_loads : list Byte.byte → option Pickled).
Hypothesis pickle_loads_dumps : ∀ p, pickle_loads (pickle_dumps p) = Some p.

Lemma instance_dict_heap w w' l :
  heap w' = heap w → instance_dict w' l = instance_dict w l.
Proof. unfold instance_dict. by intros ->. Qed.

(** [Save] rewrites the named file and nothing else. *)
Lemma Save_Return self filename w w1 :
  Settings.Save pickle_dumps self filename w = (Return (), w1) →
  heap w1 = heap w ∧ stdout w1 = stdout w ∧ views w1 = views w
  ∧ files w1 !! filename =
      Some (pickle_dumps (PickledSettings (instance_dict w self)))
  ∧ (∀ other, other ≠ filename → files w1 !! other = files w !! other).
Proof.
  unfold Settings.Save. rewrite bind_unfold. unfold open_wb.
  destruct (writable w filename); [|done]. simpl. intros [= <-]. simpl.
  split_and!; [done..|by rewrite lookup_insert_eq|].
  intros other Hne. by rewrite !lookup_insert_ne.
Qed.

(** [Load] reads the file and nothing else: the instance it builds is new. *)
Lemma Load_of_file filename d w :
  files w !! filename = Some (pickle_dumps (PickledSettings d)) →
  let loaded := fresh (dom (heap w)) in
  let w' := set_heap (<[loaded := d]> (heap w)) w in
  Settings.Load pickle_loads filename w = (Return (Inst loaded), w')
  ∧ instance_dict w' loaded = d
  ∧ (∀ l, l ≠ loaded → instance_dict w' l = instance_dict w l).
Proof.
  intros Hf loaded w'. unfold Settings.Load. rewrite bind_unfold.
  unfold open_rb_read. rewrite Hf, pickle_loads_dumps.
  split_and!; [done| |].
  - unfold instance_dict. simpl. by rewrite lookup_insert_eq.
  - intros l Hl. unfold instance_dict. simpl. by rewrite lookup_insert_ne.
Qed.

(** Property X2.  [Save] takes a snapshot: if the instance is modified after
    a [Save] that returned, [Load] of the file still yields the attributes
    as they were when [Save] ran. *)
Theorem Save_takes_a_snapshot self filename w w1 name v :
  Settings.Save pickle_dumps self filename w = (Return (), w1) →
  let w2 := (setattr (Inst self) name v w1).2 in
  instance_dict w2 self = dict_set name v (instance_dict w self)
  ∧ ∃ loaded w3,
      Settings.Load pickle_loads filename w2 = (Return (Inst loaded), w3)
      ∧ instance_dict w3 loaded = instance_dict w self.
Proof.
  intros (Hh & _ & _ & Hf & _)%Save_Return w2. split.
  - unfold w2, instance_dict at 1. simpl. rewrite lookup_insert_eq. simpl.
    by rewrite (instance_dict_heap w w1).
  - destruct (Load_of_file filename (instance_dict w self) w2) as (HL & Hd & _);
      [done|]. eauto.
Qed.

(** Property X3.  A second [Save] to the same path replaces the first: [Load]
    then yields the attributes of the instance saved last. *)
Theorem Save_overwrites self1 self2 filename w w1 w2 :
  Settings.Save pickle_dumps self1 filename w = (Return (), w1) →
  Settings.Save pickle_dumps self2 filename w1 = (Return (), w2) →
  ∃ loaded w3,
    Settings.Load pickle_loads filename w2 = (Return (Inst loaded), w3)
    ∧ instance_dict w3 loaded = instance_dict w self2.
Proof.
  intros (Hh1 & _)%Save_Return (_ & _ & _ & Hf2 & _)%Save_Return.
  destruct (Load_of_file filename (instance_dict w1 self2) w2)
    as (HL & Hd & _); [done|].
  eexists _, _. split; [exact HL|]. rewrite Hd.
  by apply instance_dict_heap.
Qed.

(** Property X4.  [Load] returns a copy, not the saved instance: after
    [Save] of a live instance and [Load], the loaded instance is another
    one, and setting an attribute on it leaves the saved instance as it
    was. *)
Theorem Load_returns_a_copy self filename w w1 name v :
  is_Some (heap w !! self) →
  Settings.Save pickle_dumps self filename w = (Return (), w1) →
  ∃ loaded w2,
    Settings.Load pickle_loads filename w1 = (Return (Inst loaded), w2)
    ∧ loaded ≠ self
    ∧ let w3 := (setattr (Inst loaded) name v w2).2 in
      instance_dict w3 self = instance_dict w self
      ∧ instance_dict w3 loaded = dict_set name v (instance_dict w self).
Proof.
  intros Hself (Hh & _ & _ & Hf & _)%Save_Return.
  destruct (Load_of_file filename (instance_dict w self) w1)
    as (HL & Hd & Ho); [done|].
  eexists _, _. split; [exact HL|].
  assert (fresh (dom (heap w1)) ≠ self) as Hne.
  { intros Heq. apply (is_fresh (dom (heap w1))). rewrite Heq, Hh.
    by apply elem_of_dom. }
  split; [done|]. simpl. split.
  - unfold instance_dict at 1. simpl. rewrite lookup_insert_ne by done.
    rewrite lookup_insert_ne by done.
    by rewrite <-(instance_dict_heap w w1 self Hh).
  - unfold instance_dict at 1. simpl. rewrite lookup_insert_eq. simpl.
    by rewrite Hd.
Qed.

(** Property X5.  [Load] of a path that holds no file raises [OSError]; and
    whenever [Load] raises, no instance has been created and nothing has
    changed. *)
Theorem Load_failures filename w :
  (files w !! filename = None →
   Settings.Load pickle_loads filename w = (Raise OSError, w))
  ∧ (∀ e w', Settings.Load pickle_loads filename w = (Raise e, w') → w' = w).
Proof.
  unfold Settings.Load. split.
  - intros Hf. rewrite bind_unfold. unfold open_rb_read. by rewrite Hf.
  - intros e w'. rewrite bind_unfold. unfold open_rb_read.
    destruct (files w !! filename) as [data|]; [|by intros [= _ <-]].
    destruct (pickle_loads data) as [[v|d]|]; simpl; try discriminate.
    by intros [= _ <-].
Qed.
End PickleMore.

(** ** [ClusterRun]: failures, leftovers and what is ignored *)

Section ClusterRunMore.
Context {Param Res : Type}.
Implicit Types (function : Param → Res) (parameter_list : list Param).
Implicit Types (args : list PyObj) (kwargs : gmap string PyObj) (w : World).

Lemma ClusterRunSGE_Raise function parameter_list max_jobs cores_per_job
    w e w' :
  ClusterRunSGE function parameter_list max_jobs cores_per_job w =
    (Raise e, w') →
  w' = w ∧ e = TypeError.
Proof.
  unfold ClusterRunSGE. rewrite bind_unfold.
  destruct (py_min _ max_jobs w) as [[num_jobs|e'] w2] eqn:E.
  - discriminate.
  - apply py_min_world in E as Hw. subst w2. intros [= <- <-].
    split; [done|]. unfold py_min in E. py_unfold.
    repeat case_match; by simplify_eq.
Qed.

Lemma ClusterRunSlurm_Raise function parameter_list max_jobs cores_per_job
    mem w e w' :
  ClusterRunSlurm function parameter_list max_jobs cores_per_job mem w =
    (Raise e, w') →
  w' = w ∧ (e = TypeError ∨ e = KeyError (PyStr "USER")).
Proof.
  unfold ClusterRunSlurm. rewrite bind_unfold.
  destruct (py_min _ max_jobs w) as [[num_jobs|e'] w2] eqn:E.
  - apply py_min_world in E as Hw. subst w2.
    rewrite bind_unfold. simpl. rewrite bind_unfold. unfold os_environ.
    destruct (environ w !! "USER") as [user|].
    + rewrite bind_unfold. destruct (format_total mem w) as [s ->]. discriminate.
    + intros [= <- <-]. auto.
  - apply py_min_world in E as Hw. subst w2. intros [= <- <-].
    split; [done|]. left. unfold py_min in E. py_unfold.
    repeat case_match; by simplify_eq.
Qed.

Lemma ClusterRun_Raise_world function parameter_list args kwargs w e w' :
  ClusterRun function parameter_list args kwargs w = (Raise e, w') → w' = w.
Proof.
  rewrite ClusterRun_unfold. intros H.
  destruct (ClusterRun_resolve args kwargs w) as [[r|e'] w2];
    [|by injection H].
  case_decide; [|by injection H].
  destruct (r_dispatch r).
  - by apply ClusterRunSGE_Raise in H as [? _].
  - by apply ClusterRunSlurm_Raise in H as [? _].
Qed.

(** Property X7.  A [settings.scheduler] other than ['sge'] and ['slurm']
    (the keys of [mapping], line 141) makes [ClusterRun] raise [KeyError]
    with that value, before any request; ['SGE'] in capitals is such a
    value. *)
Theorem ClusterRun_unknown_scheduler function parameter_list args kwargs
    w l key :
  kwargs !! "settings" = Some (Inst l) →
  dict_get "scheduler" (instance_dict w l) = Some key →
  key ≠ PyStr "sge" → key ≠ PyStr "slurm" →
  ClusterRun function parameter_list args kwargs w = (Raise (KeyError key), w).
Proof.
  intros Hs Hd H1 H2. rewrite ClusterRun_unfold.
  unfold ClusterRun_resolve. rewrite bind_unfold, Hs, bind_unfold.
  rewrite getattr_Inst, Hd, bind_unfold. unfold mapping.
  by rewrite !decide_False.
Qed.

Lemma positional_or_keyword_own args i name x kwargs :
  (positional_or_keyword args i name x kwargs).2 !! name =
  match posarg args i with Some _ => kwargs !! name | None => None end.
Proof.
  unfold positional_or_keyword. destruct (posarg args i); [done|].
  destruct (kwargs !! name) eqn:E; [|done]. apply lookup_delete_eq.
Qed.

(** The keywords left over after resolution, one name at a time: a
    parameter given positionally leaves its keyword behind. *)
Lemma ClusterRun_resolve_leftover args kwargs w r w' :
  ClusterRun_resolve args kwargs w = (Return r, w') →
  r_kwargs r !! "settings" = None
  ∧ r_kwargs r !! "max_jobs" =
      match posarg args 2 with
      | Some _ => kwargs !! "max_jobs" | None => None end
  ∧ r_kwargs r !! "cores_per_job" =
      match posarg args 3 with
      | Some _ => kwargs !! "cores_per_job" | None => None end
  ∧ r_kwargs r !! "mem" =
      match posarg args 4 with
      | Some _ => kwargs !! "mem" | None => None end.
Proof.
  unfold ClusterRun_resolve. rewrite bind_unfold. intros H.
  assert (∃ b x1 x2 x3,
    let p1 := positional_or_keyword args 2 "max_jobs" x1
                (delete "settings" kwargs) in
    let p2 := positional_or_keyword args 3 "cores_per_job" x2 p1.2 in
    let p3 := positional_or_keyword args 4 "mem" x3 p2.2 in
    r = {| r_dispatch := b; r_max_jobs := p1.1; r_cores_per_job := p2.1;
           r_mem := p3.1; r_kwargs := p3.2 |}) as (b & x1 & x2 & x3 & ->).
  { destruct (kwargs !! "settings") as [settings|] eqn:Hs.
    - rewrite bind_unfold in H.
      destruct (getattr settings "scheduler" w) as [[sch|e] w1]; [|done].
      rewrite bind_unfold in H.
      destruct (mapping sch w1) as [[b|e] w2]; [|done].
      rewrite bind_unfold in H.
      destruct (obj_dict settings w2) as [[d|e] w3]; [|done].
      py_unfold. exists b. do 3 eexists.
      simpl. repeat case_match. simplify_eq/=. by resolve_pairs.
    - py_unfold. rewrite (delete_id kwargs "settings") by done.
      exists SGE. do 3 eexists.
      simpl. repeat case_match. simplify_eq/=. by resolve_pairs. }
  simpl. split_and!.
  - rewrite !positional_or_keyword_rest by done. apply lookup_delete_eq.
  - rewrite !positional_or_keyword_rest by done.
    rewrite positional_or_keyword_own. by rewrite lookup_delete_ne.
  - rewrite !positional_or_keyword_rest by done.
    rewrite positional_or_keyword_own, positional_or_keyword_rest by done.
    by rewrite lookup_delete_ne.
  - rewrite positional_or_keyword_own, !positional_or_keyword_rest by done.
    by rewrite lookup_delete_ne.
Qed.

(** Property X8.  In a call that passes [function] and [parameter_list]
    positionally, any keyword other than [settings], [max_jobs],
    [cores_per_job] and [mem] makes [ClusterRun] raise without any request:
    it stays in [kwargs], and the backend called on line 174 or 177 rejects
    it with a [TypeError], as unknown or, for the names [function] and
    [parameter_list], as given twice (unless reading [settings] has failed
    before). *)
Theorem ClusterRun_unknown_keyword function parameter_list args kwargs
    w name :
  is_Some (kwargs !! name) →
  name ≠ "settings" → name ≠ "max_jobs" → name ≠ "cores_per_job" →
  name ≠ "mem" →
  (∃ e, ClusterRun function parameter_list args kwargs w = (Raise e, w))
  ∧ (∀ r w1, ClusterRun_resolve args kwargs w = (Return r, w1) →
       ClusterRun function parameter_list args kwargs w = (Raise TypeError, w)).
Proof.
  intros [v Hv] ????. rewrite ClusterRun_unfold.
  destruct (ClusterRun_resolve args kwargs w) as [[r|e] w1] eqn:E.
  - assert (r_kwargs r ≠ ∅) as Hne.
    { intros Hk. rewrite <-(ClusterRun_resolve_rest _ _ _ _ _ name E) in Hv
        by done.
      by rewrite Hk, lookup_empty in Hv. }
    rewrite decide_False by done. split; [eauto|done].
  - split; [eauto|]. discriminate.
Qed.

(** Property X9.  A resource parameter given both positionally and by
    keyword is a [TypeError]: the positional value is used (lines 157, 162,
    167), the keyword is not popped, and it clashes with the keyword that
    line 174 or 177 passes. *)
Theorem ClusterRun_positional_and_keyword function parameter_list args
    kwargs w r w1 :
  ClusterRun_resolve args kwargs w = (Return r, w1) →
  (is_Some (posarg args 2) ∧ is_Some (kwargs !! "max_jobs"))
  ∨ (is_Some (posarg args 3) ∧ is_Some (kwargs !! "cores_per_job"))
  ∨ (is_Some (posarg args 4) ∧ is_Some (kwargs !! "mem")) →
  ClusterRun function parameter_list args kwargs w = (Raise TypeError, w).
Proof.
  intros E Hdup. rewrite ClusterRun_unfold, E.
  destruct (ClusterRun_resolve_leftover _ _ _ _ _ E) as (_ & H2 & H3 & H4).
  rewrite decide_False; [done|]. intros Hk.
  rewrite Hk, lookup_empty in H2, H3, H4.
  destruct Hdup as [[[? Ha] [? Hb]]|[[[? Ha] [? Hb]]|[[? Ha] [? Hb]]]];
    rewrite Ha, Hb in *; done.
Qed.

Lemma posarg_take args i :
  (i < 5)%nat → posarg (take 3 args) i = posarg args i.
Proof. intros Hi. unfold posarg. apply lookup_take_lt. lia. Qed.

(** Property X10.  Positional arguments after [mem] are ignored: only
    [args[0:2]] and [args[2]], [args[3]], [args[4]] are ever read. *)
Theorem ClusterRun_ignores_further_positionals function parameter_list args
    kwargs w :
  ClusterRun function parameter_list args kwargs w =
  ClusterRun function parameter_list (take 3 args) kwargs w.
Proof.
  assert (ClusterRun_resolve args kwargs w =
          ClusterRun_resolve (take 3 args) kwargs w) as Hr.
  { unfold ClusterRun_resolve. rewrite !bind_unfold.
    match goal with |- context [match ?m w with _ => _ end] =>
      destruct (m w) as [[[[[[b x1] x2] x3] kw]|e] w1] end; [|done].
    simpl. unfold positional_or_keyword.
    by rewrite !posarg_take by lia. }
  by rewrite !ClusterRun_unfold, Hr.
Qed.

Lemma positional_or_keyword_insert args i name x kwargs name' v :
  name' ≠ name →
  positional_or_keyword args i name x (<[name' := v]> kwargs) =
  ((positional_or_keyword args i name x kwargs).1,
   <[name' := v]> (positional_or_keyword args i name x kwargs).2).
Proof.
  intros Hne. unfold positional_or_keyword.
  destruct (posarg args i); [done|].
  rewrite lookup_insert_ne by done.
  destruct (kwargs !! name); [|done]. simpl. by rewrite delete_insert_ne.
Qed.

(** Adding a [mem] keyword to a call that has none only changes the
    resolved [mem]. *)
Lemma ClusterRun_resolve_insert_mem args kwargs w r w' v :
  kwargs !! "mem" = None → posarg args 4 = None →
  ClusterRun_resolve args kwargs w = (Return r, w') →
  ClusterRun_resolve args (<["mem" := v]> kwargs) w =
    (Return {| r_dispatch := r_dispatch r; r_max_jobs := r_max_jobs r;
               r_cores_per_job := r_cores_per_job r; r_mem := v;
               r_kwargs := r_kwargs r |}, w').
Proof.
  intros Hm Hp. unfold ClusterRun_resolve. rewrite !bind_unfold.
  rewrite lookup_insert_ne by done.
  assert (∀ b x1 x2 x3 kw w1,
    kw !! "mem" = None →
    (let '(max_jobs, kwargs) :=
       positional_or_keyword args 2 "max_jobs" x1 kw in
     let '(cores_per_job, kwargs0) :=
       positional_or_keyword args 3 "cores_per_job" x2 kwargs in
     let '(mem, kwargs1) := positional_or_keyword args 4 "mem" x3 kwargs0 in
     mret (M := Py) {| r_dispatch := b; r_max_jobs := max_jobs;
             r_cores_per_job := cores_per_job; r_mem := mem;
             r_kwargs := kwargs1 |}) w1 = (Return r, w') →
    (let '(max_jobs, kwargs) :=
       positional_or_keyword args 2 "max_jobs" x1 (<["mem" := v]> kw) in
     let '(cores_per_job, kwargs0) :=
       positional_or_keyword args 3 "cores_per_job" x2 kwargs in
     let '(mem, kwargs1) := positional_or_keyword args 4 "mem" x3 kwargs0 in
     mret (M := Py) {| r_dispatch := b; r_max_jobs := max_jobs;
             r_cores_per_job := cores_per_job; r_mem := mem;
             r_kwargs := kwargs1 |}) w1 =
    (Return {| r_dispatch := r_dispatch r; r_max_jobs := r_max_jobs r;
               r_cores_per_job := r_cores_per_job r; r_mem := v;
               r_kwargs := r_kwargs r |}, w')) as Hpairs.
  { intros b x1 x2 x3 kw w1 Hkw.
    rewrite (positional_or_keyword_insert args 2 "max_jobs" _ _ "mem") by done.
    pose proof (positional_or_keyword_rest args 2 "max_jobs" x1 kw "mem") as H1.
    destruct (positional_or_keyword args 2 "max_jobs" x1 kw) as [a1 k1].
    simpl in *.
    rewrite (positional_or_keyword_insert args 3 "cores_per_job" _ _ "mem")
      by done.
    pose proof (positional_or_keyword_rest args 3 "cores_per_job" x2 k1 "mem")
      as H2.
    destruct (positional_or_keyword args 3 "cores_per_job" x2 k1) as [a2 k2].
    simpl in *. unfold positional_or_keyword. rewrite Hp, lookup_insert_eq.
    rewrite H2, H1, Hkw by done. rewrite delete_insert_eq.
    rewrite delete_id by (by rewrite H2, H1).
    py_unfold. by intros [= <- <-]. }
  destruct (kwargs !! "settings") as [settings|] eqn:Hs.
  - rewrite !bind_unfold.
    destruct (getattr settings "scheduler" w) as [[sch|e] w1]; [|done].
    rewrite !bind_unfold.
    destruct (mapping sch w1) as [[b|e] w2]; [|done].
    rewrite !bind_unfold.
    destruct (obj_dict settings w2) as [[d|e] w3]; [|done].
    unfold mret at 1 3, Py_ret at 1 3. cbv beta iota.
    rewrite delete_insert_ne by done. apply Hpairs.
    by rewrite lookup_delete_ne.
  - unfold mret at 1 3, Py_ret at 1 3. cbv beta iota. by apply Hpairs.
Qed.

(** Property X11.  With the SGE backend a [mem] keyword has no effect at
    all: it is popped on lines 169-171 and line 174 does not pass it on. *)
Theorem ClusterRun_SGE_ignores_mem function parameter_list args kwargs
    w r w1 v :
  ClusterRun_resolve args kwargs w = (Return r, w1) →
  r_dispatch r = SGE →
  kwargs !! "mem" = None → posarg args 4 = None →
  ClusterRun function parameter_list args (<["mem" := v]> kwargs) w =
  ClusterRun function parameter_list args kwargs w.
Proof.
  intros E HS Hm Hp. rewrite !ClusterRun_unfold.
  rewrite (ClusterRun_resolve_insert_mem _ _ _ _ _ v Hm Hp E), E. simpl.
  by rewrite HS.
Qed.
End ClusterRunMore.

(** ** [ClusterRun]: defaults and what the scheduler is asked for *)

Section ClusterRunDefaults.
Context {Param Res : Type}.
Implicit Types (function : Param → Res) (parameter_list : list Param).
Implicit Types (args : list PyObj) (kwargs : gmap string PyObj) (w : World).

(** Property X12.  [ClusterRun(function, parameter_list)] with nothing else is
    the call [ClusterRunSGE(function, parameter_list, max_jobs=100,
    cores_per_job=1)]; so when it returns it has asked SGE, queue [RAM.q],
    for [min(n, 100)] jobs of 1 core. *)
Theorem ClusterRun_plain_call function parameter_list w :
  ClusterRun function parameter_list [] ∅ w =
    ClusterRunSGE function parameter_list (Data (PyInt 100)) (Data (PyInt 1)) w
  ∧ (∀ res w1,
       ClusterRun function parameter_list [] ∅ w = (Return res, w1) →
       w1 = set_views (views w ++
         [{| vr_scheduler := "sge"; vr_queue := "RAM.q";
             vr_num_jobs :=
               Data (PyInt (Z.min (Z.of_nat (length parameter_list)) 100));
             vr_cores_per_job := Data (PyInt 1);
             vr_resources := "pename=python-round-robin";
             vr_profile := home w +:+ "/.ipython/" |}]) w).
Proof.
  assert (ClusterRun function parameter_list [] ∅ w =
          ClusterRunSGE function parameter_list
            (Data (PyInt 100)) (Data (PyInt 1)) w) as Hrun.
  { rewrite ClusterRun_unfold.
    change (ClusterRun_resolve [] ∅ w) with
      (Return {| r_dispatch := SGE; r_max_jobs := Data (PyInt 100);
                 r_cores_per_job := Data (PyInt 1);
                 r_mem := Data (PyStr "5GB"); r_kwargs := ∅ |}, w).
    cbv beta iota. cbn [r_kwargs r_dispatch r_max_jobs r_cores_per_job r_mem].
    by rewrite decide_True. }
  split; [done|]. rewrite Hrun. intros res w1 H.
  apply ClusterRunSGE_Return in H as (num_jobs & Hmin & _ & ->).
  rewrite py_min_int in Hmin. by injection Hmin as <-.
Qed.

(** Property X13.  Through [ClusterRun] the Slurm backend gets the defaults
    of lines 143-145, not those of its own signature (line 95): with a
    settings object that only names ['slurm'], the request is for
    [min(n, 100)] jobs (not 64), 1 core and ['5GB']. *)
Theorem ClusterRun_slurm_defaults function parameter_list w l user :
  dict_get "scheduler" (instance_dict w l) = Some (PyStr "slurm") →
  dict_get "max_jobs" (instance_dict w l) = None →
  dict_get "cores_per_job" (instance_dict w l) = None →
  dict_get "mem" (instance_dict w l) = None →
  environ w !! "USER" = Some user →
  ClusterRun function parameter_list [] {[ "settings" := Inst l ]} w =
  (Return (map function parameter_list),
   set_views (views w ++
     [{| vr_scheduler := "slurm"; vr_queue := "RAM";
         vr_num_jobs :=
           Data (PyInt (Z.min (Z.of_nat (length parameter_list)) 100));
         vr_cores_per_job := Data (PyInt 1);
         vr_resources :=
           "account=" +:+ user +:+ ";timelimit=7-00:00:00;mem=5GB";
         vr_profile := home w +:+ "/.ipython/" |}]) w).
Proof.
  intros Hs H1 H2 H3 Hu. rewrite ClusterRun_unfold.
  assert (ClusterRun_resolve [] {[ "settings" := Inst l ]} w =
    (Return {| r_dispatch := Slurm; r_max_jobs := Data (PyInt 100);
               r_cores_per_job := Data (PyInt 1);
               r_mem := Data (PyStr "5GB"); r_kwargs := ∅ |}, w)) as ->.
  { unfold ClusterRun_resolve. rewrite bind_unfold, lookup_singleton_eq.
    rewrite bind_unfold, getattr_Inst, Hs, bind_unfold. simpl.
    unfold settings_or. rewrite H1, H2, H3. simpl.
    by rewrite delete_singleton_eq. }
  cbv beta iota. cbn [r_kwargs r_dispatch r_max_jobs r_cores_per_job r_mem].
  rewrite decide_True by done.
  unfold ClusterRunSlurm.
  rewrite (bind_Return _ _ _ _ _ (py_min_int _ 100 w)).
  rewrite bind_unfold. simpl. rewrite bind_unfold. unfold os_environ.
  by rewrite Hu.
Qed.

(** Property X14.  A resolved [max_jobs] that is not a number ([None], a
    string, an instance) makes [ClusterRun] raise [TypeError] at the [min]
    of line 80 or 124, before any request. *)
Theorem ClusterRun_max_jobs_not_a_number function parameter_list args kwargs
    w r w1 :
  ClusterRun_resolve args kwargs w = (Return r, w1) →
  (∀ z, r_max_jobs r ≠ Data (PyInt z)) →
  (∀ b, r_max_jobs r ≠ Data (PyBool b)) →
  ClusterRun function parameter_list args kwargs w = (Raise TypeError, w).
Proof.
  intros E Hz Hb. rewrite ClusterRun_unfold, E.
  case_decide; [|done].
  assert (∀ n, py_min n (r_max_jobs r) w = (Raise TypeError, w)) as Hmin.
  { intros n. unfold py_min.
    destruct (r_max_jobs r) as [[| b | z | s]|l]; try done.
    - by destruct (Hb b).
    - by destruct (Hz z). }
  destruct (r_dispatch r).
  - unfold ClusterRunSGE. by rewrite bind_unfold, Hmin.
  - unfold ClusterRunSlurm. by rewrite bind_unfold, Hmin.
Qed.

(** Property X15.  Without [USER] in the environment [ClusterRunSlurm] raises
    [KeyError('USER')] on line 131 and makes no request. *)
Theorem ClusterRunSlurm_without_USER function parameter_list (m : Z)
    cores_per_job mem w :
  environ w !! "USER" = None →
  ClusterRunSlurm function parameter_list (Data (PyInt m)) cores_per_job mem w
  = (Raise (KeyError (PyStr "USER")), w).
Proof.
  intros Hu. unfold ClusterRunSlurm.
  rewrite (bind_Return _ _ _ _ _ (py_min_int _ m w)).
  rewrite bind_unfold. simpl. rewrite bind_unfold. unfold os_environ.
  by rewrite Hu.
Qed.

(** Property X16.  The request of a returning [ClusterRun]: its job count is
    [min(len(parameter_list), max_jobs)] for the resolved [max_jobs], its
    [cores_per_job] is the resolved one, passed on as it is, its profile is
    the home directory followed by ["/.ipython/"], its queue is ["RAM.q"]
    for SGE and ["RAM"] for Slurm, and no keyword was left over. *)
Theorem ClusterRun_request function parameter_list args kwargs w res w1 :
  ClusterRun function parameter_list args kwargs w = (Return res, w1) →
  ∃ r req,
    ClusterRun_resolve args kwargs w = (Return r, w)
    ∧ w1 = set_views (views w ++ [req]) w
    ∧ py_min (Z.of_nat (length parameter_list)) (r_max_jobs r) w =
        (Return (vr_num_jobs req), w)
    ∧ vr_cores_per_job req = r_cores_per_job r
    ∧ vr_profile req = home w +:+ "/.ipython/"
    ∧ vr_queue req = match r_dispatch r with SGE => "RAM.q" | Slurm => "RAM" end
    ∧ r_kwargs r = ∅.
Proof.
  rewrite ClusterRun_unfold.
  destruct (ClusterRun_resolve args kwargs w) as [[r|e] w2] eqn:E; [|done].
  apply ClusterRun_resolve_world in E as Hw. subst w2.
  case_decide as Hk; [|done]. intros H. exists r.
  destruct (r_dispatch r).
  - apply ClusterRunSGE_Return in H as (num_jobs & Hmin & -> & ->).
    eexists. split_and!; done.
  - apply ClusterRunSlurm_Return in H
      as (num_jobs & user & mem & Hmin & _ & _ & -> & ->).
    eexists. split_and!; done.
Qed.
End ClusterRunDefaults.

(** ** [ClusterChecked] and its variants: outcomes *)

Section CheckedMore.
Context {Param Res : Type} `{!Str Param, !Truth Res}.
Implicit Types (function : Param → Res) (parameter_list : list Param).
Implicit Types (args : list PyObj) (kwargs : gmap string PyObj) (w : World).

Lemma named_parameters_cases kwargs w :
  named_parameters kwargs w = (Raise TypeError, w)
  ∨ (named_parameters kwargs w = (Return (), w)
     ∧ kwargs !! "function" = None ∧ kwargs !! "parameter_list" = None).
Proof.
  unfold named_parameters. case_bool_decide as H; [by left|right].
  split; [done|].
  destruct (kwargs !! "function"), (kwargs !! "parameter_list");
    try done; exfalso; apply H; eauto.
Qed.

(** The three ways a call of [ClusterChecked] can go. *)
Lemma ClusterChecked_cases function parameter_list args kwargs w x w' :
  ClusterChecked function parameter_list args kwargs w = (x, w') →
  (∃ e, x = Raise e ∧ w' = w
        ∧ (e = TypeError
           ∨ ClusterRun function parameter_list args kwargs w = (Raise e, w)))
  ∨ (∃ w1 req, w1 = set_views (views w ++ [req]) w
       ∧ ClusterRun function parameter_list args kwargs w =
           (Return (map function parameter_list), w1)
       ∧ ((x = Return ()
           ∧ Forall (λ p, truth (function p) = true) parameter_list
           ∧ ∃ out, w' = set_stdout out w1)
          ∨ (∃ msg out, x = Raise (RuntimeError msg)
             ∧ ¬ Forall (λ p, truth (function p) = true) parameter_list
             ∧ w' = set_stdout out w1))).
Proof.
  intros H.
  destruct (named_parameters_cases kwargs w) as [Hn|(Hn & _ & _)].
  { left. unfold ClusterChecked in H. rewrite bind_unfold, Hn in H.
    injection H as <- <-. exists TypeError. auto. }
  destruct (ClusterRun function parameter_list args kwargs w)
    as [[res|e] w1] eqn:E.
  - right. rewrite (ClusterChecked_unfold _ _ _ _ _ _ _ E) in H.
    apply ClusterRun_Return in E as HR. destruct HR as (-> & [req ->] & _).
    eexists _, req. split; [done|]. split; [done|].
    assert (forallb truth (map function parameter_list) = true ↔
            Forall (λ p, truth (function p) = true) parameter_list) as Hall.
    { clear. induction parameter_list as [|p ps IH]; simpl.
      - split; [constructor|done].
      - rewrite andb_true_iff, IH, list.Forall_cons. done. }
    destruct (forallb truth (map function parameter_list)) eqn:Hf.
    + left. injection H as <- <-. split; [done|].
      split; [by apply Hall|]. eexists. reflexivity.
    + right. assert (¬ Forall (λ p, truth (function p) = true) parameter_list)
        as Hnot by (intros Hc; apply Hall in Hc; congruence).
      case_decide; injection H as <- <-.
      * eexists _, (stdout _). split; [done|]. split; [done|].
        by destruct w.
      * eexists _, _. split; [done|]. split; [done|]. reflexivity.
  - left. unfold ClusterChecked in H.
    rewrite (bind_Return _ _ _ _ _ Hn), (bind_unfold _ _ w), E in H.
    injection H as <- <-.
    apply ClusterRun_Raise_world in E as Hw. subst w1.
    exists e. auto.
Qed.

(** Property X17.  [ClusterChecked] returns normally exactly when
    [ClusterRun] returns and [function] is truthy on every parameter. *)
Theorem ClusterChecked_returns_iff function parameter_list args kwargs w :
  (∃ w', ClusterChecked function parameter_list args kwargs w = (Return (), w'))
  ↔ (∃ res w1, ClusterRun function parameter_list args kwargs w =
                 (Return res, w1))
    ∧ Forall (λ p, truth (function p) = true) parameter_list.
Proof.
  split.
  - intros [w' H]. apply ClusterChecked_cases in H
      as [(e & ? & _)|(w1 & req & _ & HR & [(_ & Hall & _)|(? & ? & ? & _)])];
      try done.
    split; [eauto|done].
  - intros [(res & w1 & HR) Hall].
    rewrite (ClusterChecked_unfold _ _ _ _ _ _ _ HR).
    apply ClusterRun_Return in HR as (-> & _).
    replace (forallb truth (map function parameter_list)) with true; [eauto|].
    symmetry. clear -Hall. induction Hall as [|p ps Hp _ IH]; [done|].
    simpl. by rewrite Hp.
Qed.

(** Property X18.  Once [ClusterRun] has returned, [ClusterChecked] either
    returns or raises a [RuntimeError], and does nothing but print: no
    further request, no change to any [Settings] instance; in particular
    the indexing [parameter_list[i]] of line 192 never raises. *)
Theorem ClusterChecked_after_ClusterRun function parameter_list args kwargs
    w res w1 x w' :
  ClusterRun function parameter_list args kwargs w = (Return res, w1) →
  ClusterChecked function parameter_list args kwargs w = (x, w') →
  (x = Return () ∨ ∃ msg, x = Raise (RuntimeError msg))
  ∧ ∃ out, w' = set_stdout out w1.
Proof.
  intros HR H. rewrite (ClusterChecked_unfold _ _ _ _ _ _ _ HR) in H.
  destruct (forallb truth res).
  { injection H as <- <-. eauto. }
  case_decide; injection H as <- <-.
  - split; [eauto|]. exists (stdout w1). by destruct w1.
  - eauto.
Qed.

(** Property X19.  [ClusterChecked] does not catch or translate: whatever
    [ClusterRun] raises is raised unchanged, in the state [ClusterRun] left,
    with nothing printed. *)
Theorem ClusterChecked_passes_on_exceptions function parameter_list args
    kwargs w e w1 :
  kwargs !! "function" = None → kwargs !! "parameter_list" = None →
  ClusterRun function parameter_list args kwargs w = (Raise e, w1) →
  ClusterChecked function parameter_list args kwargs w = (Raise e, w1).
Proof.
  intros Hf Hp E. unfold ClusterChecked.
  rewrite (bind_Return _ _ _ _ _ (named_parameters_Return _ w Hf Hp)).
  by rewrite bind_unfold, E.
Qed.

Lemma ClusterChecked_heap function parameter_list args kwargs w x w' :
  ClusterChecked function parameter_list args kwargs w = (x, w') →
  heap w' = heap w.
Proof.
  intros [(e & _ & -> & _)
         |(w1 & req & -> & _ & [(_ & _ & out & ->)|(? & out & _ & _ & ->)])]
    %ClusterChecked_cases; done.
Qed.

(** Resolution succeeds once [settings] is an instance whose [scheduler]
    names a backend. *)
Lemma ClusterRun_resolve_with_scheduler args kwargs w l key b :
  kwargs !! "settings" = Some (Inst l) →
  dict_get "scheduler" (instance_dict w l) = Some key →
  mapping key w = (Return b, w) →
  ∃ r, ClusterRun_resolve args kwargs w = (Return r, w) ∧ r_dispatch r = b.
Proof.
  intros Hs Hd Hm. unfold ClusterRun_resolve.
  rewrite bind_unfold, Hs, bind_unfold, getattr_Inst, Hd, bind_unfold, Hm.
  rewrite bind_unfold. simpl. py_unfold. repeat case_match. eauto.
Qed.

Lemma variant_unfold (tag : string) function parameter_list args kwargs w l :
  kwargs !! "function" = None → kwargs !! "parameter_list" = None →
  kwargs !! "settings" = Some (Inst l)
  ∨ (kwargs !! "settings" = None ∧ l = fresh (dom (heap w))) →
  (named_parameters kwargs;;
   fresh_settings ← Settings.__init__ [];
   let settings := default fresh_settings (kwargs !! "settings") in
   setattr settings "scheduler" (PyStr tag);;
   ClusterChecked function parameter_list args
     (<["settings" := settings]> kwargs)) w =
  ClusterChecked function parameter_list args
    (<["settings" := Inst l]> kwargs) (forced tag l w).
Proof.
  intros Hf Hp Hs.
  assert (default (Inst (fresh (dom (heap w)))) (kwargs !! "settings") = Inst l)
    as Hl by (by destruct Hs as [->|[-> ->]]).
  rewrite (bind_Return _ _ _ _ _ (named_parameters_Return _ w Hf Hp)).
  rewrite bind_unfold. simpl. rewrite Hl. by rewrite bind_unfold.
Qed.

(** Property X20.  Called with a [Settings] instance, or with no [settings],
    a variant always gets as far as the backend it names, whatever the
    instance held before (no [scheduler], ['slurm'], a misspelt one): it is
    [ClusterChecked] in a world where [ClusterRun]'s resolution succeeds
    and selects SGE (resp. Slurm), so that the run is that backend's call
    with the resolved parameters, or the [TypeError] of a keyword left
    over. *)
Theorem ClusterChecked_variants_select_backend function parameter_list args
    kwargs w l :
  kwargs !! "function" = None → kwargs !! "parameter_list" = None →
  kwargs !! "settings" = Some (Inst l)
  ∨ (kwargs !! "settings" = None ∧ l = fresh (dom (heap w))) →
  let kwargs' := <["settings" := Inst l]> kwargs in
  (let w' := forced "sge" l w in
   ClusterCheckedSGE function parameter_list args kwargs w =
     ClusterChecked function parameter_list args kwargs' w'
   ∧ ∃ r,
       ClusterRun_resolve args kwargs' w' = (Return r, w')
       ∧ r_dispatch r = SGE
       ∧ ClusterRun function parameter_list args kwargs' w' =
         if decide (r_kwargs r = ∅)
         then ClusterRunSGE function parameter_list
                (r_max_jobs r) (r_cores_per_job r) w'
         else (Raise TypeError, w'))
  ∧ (let w' := forced "slurm" l w in
     ClusterCheckedSlurm function parameter_list args kwargs w =
       ClusterChecked function parameter_list args kwargs' w'
     ∧ ∃ r,
         ClusterRun_resolve args kwargs' w' = (Return r, w')
         ∧ r_dispatch r = Slurm
         ∧ ClusterRun function parameter_list args kwargs' w' =
           if decide (r_kwargs r = ∅)
           then ClusterRunSlurm function parameter_list
                  (r_max_jobs r) (r_cores_per_job r) (r_mem r) w'
           else (Raise TypeError, w')).
Proof.
  intros Hf Hp Hs kwargs'. split; intros w'.
  - split; [by apply (variant_unfold "sge")|].
    destruct (ClusterRun_resolve_with_scheduler args kwargs' w' l
                (PyStr "sge") SGE) as (r & Hr & HS).
    { apply lookup_insert_eq. } { apply forced_scheduler. } { done. }
    exists r. split_and!; [done..|].
    by rewrite ClusterRun_unfold, Hr, HS.
  - split; [by apply (variant_unfold "slurm")|].
    destruct (ClusterRun_resolve_with_scheduler args kwargs' w' l
                (PyStr "slurm") Slurm) as (r & Hr & HS).
    { apply lookup_insert_eq. } { apply forced_scheduler. } { done. }
    exists r. split_and!; [done..|].
    by rewrite ClusterRun_unfold, Hr, HS.
Qed.

(** Property X21.  The variants write into the caller's object and the
    write stays: however [ClusterCheckedSGE] (resp. [ClusterCheckedSlurm])
    ends, the settings instance it used has [scheduler] equal to ['sge']
    (resp. ['slurm']) afterwards. *)
Theorem ClusterChecked_variants_leave_scheduler_set function parameter_list
    args kwargs w l :
  kwargs !! "function" = None → kwargs !! "parameter_list" = None →
  kwargs !! "settings" = Some (Inst l)
  ∨ (kwargs !! "settings" = None ∧ l = fresh (dom (heap w))) →
  (∀ x w', ClusterCheckedSGE function parameter_list args kwargs w = (x, w') →
     getattr (Inst l) "scheduler" w' = (Return (PyStr "sge"), w'))
  ∧ (∀ x w', ClusterCheckedSlurm function parameter_list args kwargs w =
               (x, w') →
     getattr (Inst l) "scheduler" w' = (Return (PyStr "slurm"), w')).
Proof.
  intros Hf Hp Hs. split; intros x w' H.
  - unfold ClusterCheckedSGE in H.
    rewrite (variant_unfold "sge" _ _ _ _ _ l Hf Hp Hs) in H.
    apply ClusterChecked_heap in H.
    by rewrite getattr_Inst, (instance_dict_heap _ _ l H), forced_scheduler.
  - unfold ClusterCheckedSlurm in H.
    rewrite (variant_unfold "slurm" _ _ _ _ _ l Hf Hp Hs) in H.
    apply ClusterChecked_heap in H.
    by rewrite getattr_Inst, (instance_dict_heap _ _ l H), forced_scheduler.
Qed.

(** Property X22.  A [settings] that is not an instance (such as [None]) is
    not replaced by a fresh [Settings()]: both variants raise
    [AttributeError] on [settings.scheduler = ...], with no request, nothing
    printed and the existing instances as they were. *)
Theorem ClusterChecked_variants_need_an_instance function parameter_list
    args kwargs w d :
  kwargs !! "function" = None → kwargs !! "parameter_list" = None →
  kwargs !! "settings" = Some (Data d) →
  let w' := (alloc [] w).2 in
  ClusterCheckedSGE function parameter_list args kwargs w =
    (Raise (AttributeError "scheduler"), w')
  ∧ ClusterCheckedSlurm function parameter_list args kwargs w =
    (Raise (AttributeError "scheduler"), w')
  ∧ views w' = views w ∧ stdout w' = stdout w
  ∧ ∀ l, is_Some (heap w !! l) → instance_dict w' l = instance_dict w l.
Proof.
  intros Hf Hp Hs w'. split_and!.
  - unfold ClusterCheckedSGE.
    rewrite (bind_Return _ _ _ _ _ (named_parameters_Return _ w Hf Hp)).
    rewrite bind_unfold. simpl. by rewrite Hs.
  - unfold ClusterCheckedSlurm.
    rewrite (bind_Return _ _ _ _ _ (named_parameters_Return _ w Hf Hp)).
    rewrite bind_unfold. simpl. by rewrite Hs.
  - done.
  - done.
  - intros l Hl. apply instance_dict_alloc. intros ->.
    apply (is_fresh (dom (heap w))). by apply elem_of_dom.
Qed.
End CheckedMore.

(** * The further properties on the examples *)

Lemma Settings_init_attributes_witness :
  ∃ l w',
    Settings.__init__ Example.settings Example.world = (Return (Inst l), w')
    ∧ instance_dict w' l = Example.settings.
Proof.
  destruct (Settings_init_attributes Example.settings Example.world)
    as [H _].
  - refine (bool_decide_unpack _ _). vm_compute. exact I.
  - destruct H as (l & w' & H & _ & Hd & _).
    + refine (bool_decide_unpack _ _). vm_compute. exact I.
    + by exists l, w'.
Defined.

Lemma Save_takes_a_snapshot_witness :
  let saved :=
    (Settings.Save codec_dumps 0%nat "my_analysis.pkl"
       Example.world_with_settings).2 in
  let later := (setattr (Inst 0%nat) "max_jobs" (PyInt 32) saved).2 in
  ∃ loaded w3,
    Settings.Load codec_loads "my_analysis.pkl" later =
      (Return (Inst loaded), w3)
    ∧ instance_dict w3 loaded = Example.settings.
Proof.
  intros saved later.
  destruct (Save_takes_a_snapshot codec_dumps codec_loads codec_loads_dumps
              0%nat "my_analysis.pkl" Example.world_with_settings saved
              "max_jobs" (PyInt 32))
    as (_ & loaded & w3 & HL & Hd).
  - reflexivity.
  - exists loaded, w3. split; [exact HL|]. rewrite Hd. reflexivity.
Defined.

Lemma Save_overwrites_witness :
  let w1 := (Settings.Save codec_dumps 0%nat "settings.pkl"
               Inputs.two_instances).2 in
  let w2 := (Settings.Save codec_dumps 1%nat "settings.pkl" w1).2 in
  ∃ loaded w3,
    Settings.Load codec_loads "settings.pkl" w2 = (Return (Inst loaded), w3)
    ∧ instance_dict w3 loaded = [("scheduler", PyStr "sge")].
Proof.
  intros w1 w2.
  destruct (Save_overwrites codec_dumps codec_loads codec_loads_dumps
              0%nat 1%nat "settings.pkl" Inputs.two_instances w1 w2)
    as (loaded & w3 & HL & Hd).
  - reflexivity.
  - reflexivity.
  - exists loaded, w3. split; [exact HL|]. rewrite Hd. reflexivity.
Defined.

Lemma Load_returns_a_copy_witness :
  let saved :=
    (Settings.Save codec_dumps 0%nat "my_analysis.pkl"
       Example.world_with_settings).2 in
  ∃ loaded w2,
    Settings.Load codec_loads "my_analysis.pkl" saved =
      (Return (Inst loaded), w2)
    ∧ loaded ≠ 0%nat
    ∧ instance_dict (setattr (Inst loaded) "mem" (PyStr "1GB") w2).2 0%nat =
      Example.settings.
Proof.
  intros saved.
  destruct (Load_returns_a_copy codec_dumps codec_loads codec_loads_dumps
              0%nat "my_analysis.pkl" Example.world_with_settings saved
              "mem" (PyStr "1GB"))
    as (loaded & w2 & HL & Hne & Hs & _).
  - exists Example.settings. reflexivity.
  - reflexivity.
  - exists loaded, w2. split; [exact HL|]. split; [exact Hne|].
    rewrite Hs. reflexivity.
Defined.

Lemma Load_failures_witness :
  Settings.Load codec_loads "settings.pkl" Example.world =
  (Raise OSError, Example.world).
Proof.
  destruct (Load_failures codec_loads "settings.pkl" Example.world)
    as (H & _).
  apply H. reflexivity.
Defined.

Lemma ClusterRun_unknown_scheduler_witness :
  ClusterRun (Example.RunMyAnalysis []) Example.subs []
    {[ "settings" := Inst 0%nat ]} Inputs.upper_case =
  (Raise (KeyError (PyStr "SGE")), Inputs.upper_case).
Proof.
  apply (ClusterRun_unknown_scheduler _ _ _ _ _ 0%nat).
  - reflexivity.
  - reflexivity.
  - discriminate.
  - discriminate.
Defined.

Lemma ClusterRun_unknown_keyword_witness :
  ClusterRun (Example.RunMyAnalysis []) Example.subs []
    {[ "queue" := Data (PyStr "long") ]} Example.world =
  (Raise TypeError, Example.world).
Proof.
  destruct (ClusterRun_unknown_keyword (Example.RunMyAnalysis []) Example.subs
              [] {[ "queue" := Data (PyStr "long") ]} Example.world "queue")
    as (_ & H); [by eexists|discriminate..|].
  apply (H {| r_dispatch := SGE; r_max_jobs := Data (PyInt 100);
              r_cores_per_job := Data (PyInt 1);
              r_mem := Data (PyStr "5GB");
              r_kwargs := {[ "queue" := Data (PyStr "long") ]} |}
           Example.world).
  reflexivity.
Defined.

Lemma ClusterRun_positional_and_keyword_witness :
  ClusterRun (Example.RunMyAnalysis []) Example.subs [Data (PyInt 8)]
    {[ "max_jobs" := Data (PyInt 4) ]} Example.world =
  (Raise TypeError, Example.world).
Proof.
  apply (ClusterRun_positional_and_keyword _ _ _ _ _
           {| r_dispatch := SGE; r_max_jobs := Data (PyInt 8);
              r_cores_per_job := Data (PyInt 1);
              r_mem := Data (PyStr "5GB");
              r_kwargs := {[ "max_jobs" := Data (PyInt 4) ]} |}
           Example.world).
  - reflexivity.
  - left. split; by eexists.
Defined.

Lemma ClusterRun_SGE_ignores_mem_witness :
  ClusterRun (Example.RunMyAnalysis []) Example.subs []
    (<["mem" := Data (PyStr "20GB")]> ∅) Example.world =
  ClusterRun (Example.RunMyAnalysis []) Example.subs [] ∅ Example.world.
Proof.
  apply (ClusterRun_SGE_ignores_mem _ _ _ _ _
           {| r_dispatch := SGE; r_max_jobs := Data (PyInt 100);
              r_cores_per_job := Data (PyInt 1);
              r_mem := Data (PyStr "5GB"); r_kwargs := ∅ |}
           Example.world); reflexivity.
Defined.

Lemma ClusterRun_plain_call_witness :
  (ClusterRun (Example.RunMyAnalysis []) Example.subs [] ∅ Example.world).2 =
  set_views [Example.sge_request] Example.world.
Proof.
  destruct (ClusterRun_plain_call (Example.RunMyAnalysis []) Example.subs
              Example.world) as [_ H].
  rewrite (H [true; true; true]
             (ClusterRun (Example.RunMyAnalysis []) Example.subs [] ∅
                Example.world).2).
  - reflexivity.
  - reflexivity.
Defined.

Lemma ClusterRun_slurm_defaults_witness :
  ClusterRun (Example.RunMyAnalysis []) Example.subs []
    {[ "settings" := Inst 0%nat ]} Inputs.slurm_only =
  (Return [true; true; true],
   set_views
     [{| vr_scheduler := "slurm"; vr_queue := "RAM";
         vr_num_jobs := Data (PyInt 3); vr_cores_per_job := Data (PyInt 1);
         vr_resources := "account=alice;timelimit=7-00:00:00;mem=5GB";
         vr_profile := "/home/alice/.ipython/" |}] Inputs.slurm_only).
Proof.
  apply (ClusterRun_slurm_defaults (Example.RunMyAnalysis []) Example.subs
           Inputs.slurm_only 0%nat "alice"); reflexivity.
Defined.

Lemma ClusterRun_max_jobs_not_a_number_witness :
  ClusterRun (Example.RunMyAnalysis []) Example.subs []
    {[ "settings" := Inst 0%nat ]} Inputs.string_max_jobs =
  (Raise TypeError, Inputs.string_max_jobs).
Proof.
  apply (ClusterRun_max_jobs_not_a_number _ _ _ _ _
           {| r_dispatch := SGE; r_max_jobs := Data (PyStr "16");
              r_cores_per_job := Data (PyInt 1);
              r_mem := Data (PyStr "5GB"); r_kwargs := ∅ |}
           Inputs.string_max_jobs).
  - vm_compute. reflexivity.
  - discriminate.
  - discriminate.
Defined.

Lemma ClusterRunSlurm_without_USER_witness :
  ClusterRunSlurm (Example.RunMyAnalysis []) Example.subs
    (Data (PyInt 16)) (Data (PyInt 1)) (Data (PyStr "20GB")) Inputs.no_user =
  (Raise (KeyError (PyStr "USER")), Inputs.no_user).
Proof.
  apply ClusterRunSlurm_without_USER. reflexivity.
Defined.

Lemma ClusterRun_request_witness :
  ∃ r req,
    ClusterRun_resolve [] ∅ Example.world = (Return r, Example.world)
    ∧ vr_cores_per_job req = r_cores_per_job r
    ∧ vr_queue req = "RAM.q".
Proof.
  destruct (ClusterRun_request (Example.RunMyAnalysis []) Example.subs [] ∅
              Example.world [true; true; true]
              (set_views [Example.sge_request] Example.world))
    as (r & req & Hr & _ & _ & Hc & _ & Hq & _).
  - reflexivity.
  - exists r, req. split; [exact Hr|]. split; [exact Hc|].
    rewrite Hq. vm_compute in Hr. by injection Hr as <-.
Defined.

Lemma ClusterChecked_after_ClusterRun_witness :
  let run :=
    ClusterChecked (Example.RunMyAnalysis ["R1644T"]) Example.subs [] ∅
      Example.world in
  (run.1 = Return () ∨ ∃ msg, run.1 = Raise (RuntimeError msg))
  ∧ ∃ out, run.2 = set_stdout out (set_views [Example.sge_request] Example.world).
Proof.
  intros run.
  apply (ClusterChecked_after_ClusterRun
           (Example.RunMyAnalysis ["R1644T"]) Example.subs [] ∅
           Example.world [true; false; true]).
  - reflexivity.
  - reflexivity.
Defined.

Lemma ClusterChecked_passes_on_exceptions_witness :
  ClusterChecked (Example.RunMyAnalysis []) Example.subs []
    {[ "settings" := Inst 0%nat ]} Inputs.no_scheduler =
  (Raise (AttributeError "scheduler"), Inputs.no_scheduler).
Proof.
  apply (ClusterChecked_passes_on_exceptions _ _ _ _ _ _ Inputs.no_scheduler);
    reflexivity.
Defined.

Lemma ClusterChecked_variants_select_backend_witness :
  let w' := forced "sge" 0%nat Inputs.no_scheduler in
  ClusterCheckedSGE (Example.RunMyAnalysis []) Example.subs []
    {[ "settings" := Inst 0%nat ]} Inputs.no_scheduler =
  (Return (),
   set_stdout ("All 3 jobs successful." +:+ nl)
     (set_views [Example.sge_request] w')).
Proof.
  intros w'.
  destruct (ClusterChecked_variants_select_backend
              (Example.RunMyAnalysis []) Example.subs []
              {[ "settings" := Inst 0%nat ]} Inputs.no_scheduler 0%nat)
    as [[H _] _].
  - reflexivity.
  - reflexivity.
  - left. reflexivity.
  - rewrite H. vm_compute. reflexivity.
Defined.

Lemma ClusterChecked_variants_leave_scheduler_set_witness :
  let after :=
    (ClusterCheckedSGE (Example.RunMyAnalysis Example.subs) Example.subs []
       {[ "settings" := Inst 0%nat ]} Example.world_with_settings).2 in
  getattr (Inst 0%nat) "scheduler" after = (Return (PyStr "sge"), after).
Proof.
  intros after.
  destruct (ClusterChecked_variants_leave_scheduler_set
              (Example.RunMyAnalysis Example.subs) Example.subs []
              {[ "settings" := Inst 0%nat ]} Example.world_with_settings 0%nat)
    as [H _].
  - reflexivity.
  - reflexivity.
  - left. reflexivity.
  - apply (H (Raise (RuntimeError "All 3 jobs failed!"))). reflexivity.
Defined.

Lemma ClusterChecked_variants_need_an_instance_witness :
  (ClusterCheckedSGE (Example.RunMyAnalysis []) Example.subs []
     {[ "settings" := Data PyNone ]} Example.world).1 =
  Raise (AttributeError "scheduler").
Proof.
  destruct (ClusterChecked_variants_need_an_instance
              (Example.RunMyAnalysis []) Example.subs []
              {[ "settings" := Data PyNone ]} Example.world PyNone)
    as (H & _).
  - reflexivity.
  - reflexivity.
  - reflexivity.
  - rewrite H. reflexivity.
Defined.
